(** * Credit-card recommendation engine: valuation and ranking

    A shallow embedding of [utils/calculator.py] and of the parts of
    [data/credit_cards.py] it reads, followed by the properties of the
    valuation and ranking functions.

    Conventions of the embedding.
    - Python [int] is [Z].
    - Python [float] is idealised as an exact rational [Q]: rounding,
      infinities and NaN are outside the model.  Equalities that only
      restate the order of the operations are Leibniz equalities; those
      that need arithmetic are stated with [==] ([Qeq]).
    - A [dict] is an association list in insertion order with unique keys
      ([dict_set] keeps both properties); a card and a result are records,
      a key a result does not carry is [None].
    - A raised exception is the [Raise] case of the [py] monad. *)

From Stdlib Require Import ZArith QArith Qround Qabs Bool List String Ascii Lia.
From Stdlib Require Import Permutation Sorted Morphisms.
Import ListNotations.

Local Open Scope string_scope.
Local Open Scope list_scope.
Local Open Scope Z_scope.

(** ** Exceptions *)

Inductive exn : Type :=
| ZeroDivisionError.

Inductive py (A : Type) : Type :=
| Ok (a : A)
| Raise (e : exn).

Arguments Ok {A} a.
Arguments Raise {A} e.

Definition bind {A B : Type} (m : py A) (k : A -> py B) : py B :=
  match m with
  | Ok a => k a
  | Raise e => Raise e
  end.

Notation "x <- m ;; k" := (bind m (fun x => k))
  (at level 61, m at next level, right associativity).

(** [a / b] on numbers: raises when the divisor is zero. *)
Definition truediv (a b : Q) : py Q :=
  if Qeq_bool b 0 then Raise ZeroDivisionError else Ok (a / b)%Q.

(** ** Dictionaries *)

Definition dict (V : Type) : Type := list (string * V).

Definition keys {V : Type} (d : dict V) : list string := map fst d.

Definition values {V : Type} (d : dict V) : list V := map snd d.

(** [d.get(k, default)] *)
Fixpoint dict_get {V : Type} (d : dict V) (k : string) (default : V) : V :=
  match d with
  | [] => default
  | (k', v) :: d' => if String.eqb k' k then v else dict_get d' k default
  end.

(** [d[k] = v]: an existing key keeps its position, a new key goes last. *)
Fixpoint dict_set {V : Type} (d : dict V) (k : string) (v : V) : dict V :=
  match d with
  | [] => [(k, v)]
  | (k', v') :: d' =>
      if String.eqb k' k then (k', v) :: d' else (k', v') :: dict_set d' k v
  end.

(** ** Number formatting *)

(** An f-string: its pieces, joined. *)
Definition fstring (pieces : list string) : string :=
  String.concat EmptyString pieces.

(** The character of a decimal digit. *)
Definition digit_char (d : Z) : ascii :=
  ascii_of_nat (48 + Z.to_nat d).

(** The decimal digits of a non-negative number, least significant first;
    the fuel bounds the number of digits. *)
Fixpoint digits_rev (fuel : nat) (n : Z) : list ascii :=
  match fuel with
  | O => []
  | S fuel' =>
      if n <? 10 then [digit_char n]
      else digit_char (n mod 10) :: digits_rev fuel' (n / 10)
  end.

(** A number has no more decimal digits than binary ones. *)
Definition digits_fuel (n : Z) : nat := S (Z.to_nat (Z.log2 n)).

(** A comma after every third digit, counted from the least significant. *)
Fixpoint group3 (i : nat) (ds : list ascii) : list ascii :=
  match ds with
  | [] => []
  | d :: ds' =>
      match i with
      | 3%nat => ","%char :: d :: group3 1 ds'
      | _ => d :: group3 (S i) ds'
      end
  end.

Definition string_of_chars (cs : list ascii) : string :=
  fold_right String EmptyString cs.

(** [str(n)] and [f"{n:,}"] for an [int]. *)
Definition format_int (comma : bool) (n : Z) : string :=
  let ds := digits_rev (digits_fuel (Z.abs n)) (Z.abs n) in
  let ds := if comma then group3 0 ds else ds in
  fstring [if n <? 0 then "-" else EmptyString; string_of_chars (rev ds)].

(** Round to the nearest integer, ties to the even one. *)
Definition round_half_even (q : Q) : Z :=
  let f := Qfloor q in
  let r := (q - inject_Z f)%Q in
  match (r ?= 1 # 2)%Q with
  | Lt => f
  | Gt => f + 1
  | Eq => if Z.even f then f else f + 1
  end.

(** Zeros on the left, up to [n] characters. *)
Definition pad_zeros (n : nat) (cs : list ascii) : list ascii :=
  repeat "0"%char (n - List.length cs) ++ cs.

(** [f"{q:.{nd}f}"] and [f"{q:,.{nd}f}"] for a [float]. *)
Definition format_fixed (comma : bool) (nd : nat) (q : Q) : string :=
  let scale := 10 ^ Z.of_nat nd in
  let n := round_half_even (Qabs q * inject_Z scale)%Q in
  let ip := n / scale in
  let fp := n mod scale in
  let fds := rev (digits_rev (digits_fuel fp) fp) in
  fstring
    [if Qlt_le_dec q 0 then "-" else EmptyString;
     format_int comma ip;
     match nd with
     | O => EmptyString
     | _ => String "."%char (string_of_chars (pad_zeros nd fds))
     end].

(** ** Data model ([data/credit_cards.py]) *)

Module Card.
(** One entry of [CREDIT_CARDS].  The thresholds of [milestone_benefits]
    are [int] keys in the catalog, for which line 95 of the calculator
    ([int(threshold) if isinstance(threshold, str) else threshold]) is
    the identity. *)
Record t : Type := {
  card_name : string;
  bank : string;
  annual_fee : Z;
  fee_waiver_threshold : Z;
  min_salary_req : Z;
  base_reward_rate : Q;
  category_multipliers : dict Q;
  lounge_access : string;
  lounge_visits_per_quarter : Z;
  milestone_benefits : list (Z * Z);
  fuel_surcharge_waiver : bool;
  card_type : string;
  joining_fee : Z;
  welcome_benefit : Z;
  description : string
}.
End Card.

Definition POINT_VALUATION : dict Q :=
  [("HDFC", (50 # 100));
   ("SBI", (25 # 100));
   ("Axis", (50 # 100));
   ("ICICI", (25 # 100));
   ("Amex", (50 # 100));
   ("RBL", (25 # 100));
   ("IndusInd", (50 # 100))].

Definition HDFC_Infinia : Card.t :=
  {| Card.card_name := "HDFC Infinia";
     Card.bank := "HDFC";
     Card.annual_fee := 12500;
     Card.fee_waiver_threshold := 1000000;
     Card.min_salary_req := 300000;
     Card.base_reward_rate := 33 # 1000;
     Card.category_multipliers := [("travel", 5 # 100); ("dining", 33 # 1000); ("online", 33 # 1000); ("utilities", 33 # 1000)];
     Card.lounge_access := "Unlimited domestic & international";
     Card.lounge_visits_per_quarter := 999;
     Card.milestone_benefits := [(800000, 10000); (1500000, 25000)];
     Card.fuel_surcharge_waiver := true;
     Card.card_type := "Super Premium";
     Card.joining_fee := 12500;
     Card.welcome_benefit := 12500;
     Card.description := "India's most premium card with unmatched rewards and luxury benefits" |}.

Definition HDFC_Regalia_Gold : Card.t :=
  {| Card.card_name := "HDFC Regalia Gold";
     Card.bank := "HDFC";
     Card.annual_fee := 2500;
     Card.fee_waiver_threshold := 300000;
     Card.min_salary_req := 60000;
     Card.base_reward_rate := 2 # 100;
     Card.category_multipliers := [("travel", 4 # 100); ("dining", 2 # 100); ("online", 2 # 100); ("utilities", 2 # 100)];
     Card.lounge_access := "8 per year (domestic & international)";
     Card.lounge_visits_per_quarter := 2;
     Card.milestone_benefits := [(500000, 5000)];
     Card.fuel_surcharge_waiver := true;
     Card.card_type := "Premium";
     Card.joining_fee := 2500;
     Card.welcome_benefit := 2500;
     Card.description := "Great all-rounder for mid-income professionals" |}.

Definition HDFC_Diners_Black : Card.t :=
  {| Card.card_name := "HDFC Diners Black";
     Card.bank := "HDFC";
     Card.annual_fee := 10000;
     Card.fee_waiver_threshold := 500000;
     Card.min_salary_req := 175000;
     Card.base_reward_rate := 33 # 1000;
     Card.category_multipliers := [("travel", 10 # 100); ("dining", 10 # 100); ("online", 33 # 1000); ("utilities", 33 # 1000)];
     Card.lounge_access := "Unlimited via Diners Club network";
     Card.lounge_visits_per_quarter := 999;
     Card.milestone_benefits := [(400000, 10000); (800000, 25000)];
     Card.fuel_surcharge_waiver := true;
     Card.card_type := "Super Premium";
     Card.joining_fee := 10000;
     Card.welcome_benefit := 10000;
     Card.description := "Best for dining and travel with 10x rewards on SmartBuy" |}.

Definition SBI_Cashback_Card : Card.t :=
  {| Card.card_name := "SBI Cashback Card";
     Card.bank := "SBI";
     Card.annual_fee := 999;
     Card.fee_waiver_threshold := 200000;
     Card.min_salary_req := 30000;
     Card.base_reward_rate := 1 # 100;
     Card.category_multipliers := [("travel", 1 # 100); ("dining", 1 # 100); ("online", 5 # 100); ("utilities", 1 # 100)];
     Card.lounge_access := "4 per year (domestic)";
     Card.lounge_visits_per_quarter := 1;
     Card.milestone_benefits := [];
     Card.fuel_surcharge_waiver := true;
     Card.card_type := "Regular";
     Card.joining_fee := 999;
     Card.welcome_benefit := 0;
     Card.description := "Best for online shoppers with 5% cashback on online purchases" |}.

Definition SBI_SimplyCLICK : Card.t :=
  {| Card.card_name := "SBI SimplyCLICK";
     Card.bank := "SBI";
     Card.annual_fee := 499;
     Card.fee_waiver_threshold := 100000;
     Card.min_salary_req := 25000;
     Card.base_reward_rate := 125 # 10000;
     Card.category_multipliers := [("travel", 125 # 10000); ("dining", 125 # 10000); ("online", 25 # 1000); ("utilities", 125 # 10000)];
     Card.lounge_access := "None";
     Card.lounge_visits_per_quarter := 0;
     Card.milestone_benefits := [(100000, 2000); (200000, 2000)];
     Card.fuel_surcharge_waiver := true;
     Card.card_type := "Entry Level";
     Card.joining_fee := 499;
     Card.welcome_benefit := 500;
     Card.description := "Perfect entry-level card for online shopping enthusiasts" |}.

Definition Axis_Atlas : Card.t :=
  {| Card.card_name := "Axis Atlas";
     Card.bank := "Axis";
     Card.annual_fee := 5000;
     Card.fee_waiver_threshold := 1500000;
     Card.min_salary_req := 125000;
     Card.base_reward_rate := 2 # 100;
     Card.category_multipliers := [("travel", 5 # 100); ("dining", 2 # 100); ("online", 2 # 100); ("utilities", 2 # 100)];
     Card.lounge_access := "8 international + 8 domestic per year";
     Card.lounge_visits_per_quarter := 4;
     Card.milestone_benefits := [(750000, 7500); (1500000, 12500)];
     Card.fuel_surcharge_waiver := true;
     Card.card_type := "Travel Premium";
     Card.joining_fee := 5000;
     Card.welcome_benefit := 5000;
     Card.description := "Best travel card for frequent flyers with EDGE miles" |}.

Definition Axis_Flipkart : Card.t :=
  {| Card.card_name := "Axis Flipkart";
     Card.bank := "Axis";
     Card.annual_fee := 500;
     Card.fee_waiver_threshold := 0;
     Card.min_salary_req := 15000;
     Card.base_reward_rate := 15 # 1000;
     Card.category_multipliers := [("travel", 15 # 1000); ("dining", 15 # 1000); ("online", 5 # 100); ("utilities", 15 # 1000)];
     Card.lounge_access := "4 per year (domestic)";
     Card.lounge_visits_per_quarter := 1;
     Card.milestone_benefits := [];
     Card.fuel_surcharge_waiver := true;
     Card.card_type := "Lifetime Free";
     Card.joining_fee := 0;
     Card.welcome_benefit := 0;
     Card.description := "Lifetime free card with excellent Flipkart rewards" |}.

Definition ICICI_Amazon_Pay : Card.t :=
  {| Card.card_name := "ICICI Amazon Pay";
     Card.bank := "ICICI";
     Card.annual_fee := 500;
     Card.fee_waiver_threshold := 0;
     Card.min_salary_req := 20000;
     Card.base_reward_rate := 1 # 100;
     Card.category_multipliers := [("travel", 1 # 100); ("dining", 1 # 100); ("online", 5 # 100); ("utilities", 2 # 100)];
     Card.lounge_access := "None";
     Card.lounge_visits_per_quarter := 0;
     Card.milestone_benefits := [];
     Card.fuel_surcharge_waiver := true;
     Card.card_type := "Co-branded";
     Card.joining_fee := 0;
     Card.welcome_benefit := 500;
     Card.description := "Best for Amazon shoppers with 5% cashback for Prime members" |}.

Definition ICICI_Coral : Card.t :=
  {| Card.card_name := "ICICI Coral";
     Card.bank := "ICICI";
     Card.annual_fee := 500;
     Card.fee_waiver_threshold := 150000;
     Card.min_salary_req := 30000;
     Card.base_reward_rate := 1 # 100;
     Card.category_multipliers := [("travel", 1 # 100); ("dining", 2 # 100); ("online", 1 # 100); ("utilities", 1 # 100)];
     Card.lounge_access := "1 per quarter (domestic)";
     Card.lounge_visits_per_quarter := 1;
     Card.milestone_benefits := [];
     Card.fuel_surcharge_waiver := true;
     Card.card_type := "Entry Premium";
     Card.joining_fee := 500;
     Card.welcome_benefit := 500;
     Card.description := "Good starter card with dining benefits and lounge access" |}.

Definition Amex_Platinum_Travel : Card.t :=
  {| Card.card_name := "Amex Platinum Travel";
     Card.bank := "Amex";
     Card.annual_fee := 3500;
     Card.fee_waiver_threshold := 0;
     Card.min_salary_req := 50000;
     Card.base_reward_rate := 1 # 100;
     Card.category_multipliers := [("travel", 5 # 100); ("dining", 1 # 100); ("online", 1 # 100); ("utilities", 1 # 100)];
     Card.lounge_access := "4 per quarter (domestic)";
     Card.lounge_visits_per_quarter := 4;
     Card.milestone_benefits := [(190000, 10000); (400000, 20000)];
     Card.fuel_surcharge_waiver := false;
     Card.card_type := "Travel";
     Card.joining_fee := 3500;
     Card.welcome_benefit := 5000;
     Card.description := "Best for travelers with Amex network and milestone rewards" |}.

Definition RBL_Shoprite : Card.t :=
  {| Card.card_name := "RBL Shoprite";
     Card.bank := "RBL";
     Card.annual_fee := 0;
     Card.fee_waiver_threshold := 0;
     Card.min_salary_req := 15000;
     Card.base_reward_rate := 125 # 10000;
     Card.category_multipliers := [("travel", 125 # 10000); ("dining", 125 # 10000); ("online", 25 # 1000); ("utilities", 125 # 10000)];
     Card.lounge_access := "None";
     Card.lounge_visits_per_quarter := 0;
     Card.milestone_benefits := [];
     Card.fuel_surcharge_waiver := true;
     Card.card_type := "Lifetime Free";
     Card.joining_fee := 0;
     Card.welcome_benefit := 0;
     Card.description := "Completely free card with decent rewards for everyday spends" |}.

Definition IndusInd_Tiger : Card.t :=
  {| Card.card_name := "IndusInd Tiger";
     Card.bank := "IndusInd";
     Card.annual_fee := 0;
     Card.fee_waiver_threshold := 0;
     Card.min_salary_req := 20000;
     Card.base_reward_rate := 175 # 10000;
     Card.category_multipliers := [("travel", 175 # 10000); ("dining", 175 # 10000); ("online", 35 # 1000); ("utilities", 175 # 10000)];
     Card.lounge_access := "2 per quarter (domestic)";
     Card.lounge_visits_per_quarter := 2;
     Card.milestone_benefits := [(50000, 500); (100000, 1000)];
     Card.fuel_surcharge_waiver := true;
     Card.card_type := "Lifetime Free";
     Card.joining_fee := 0;
     Card.welcome_benefit := 0;
     Card.description := "Great lifetime free card with lounge access and weekend rewards" |}.

Definition CREDIT_CARDS : list Card.t :=
  [HDFC_Infinia;
   HDFC_Regalia_Gold;
   HDFC_Diners_Black;
   SBI_Cashback_Card;
   SBI_SimplyCLICK;
   Axis_Atlas;
   Axis_Flipkart;
   ICICI_Amazon_Pay;
   ICICI_Coral;
   Amex_Platinum_Travel;
   RBL_Shoprite;
   IndusInd_Tiger].

(** ** Results ([utils/calculator.py]) *)

Module Breakdown.
Record t : Type := {
  annual_fee : Z;
  effective_fee : Z;
  fee_waived : bool;
  total_rewards : Q;
  category_rewards : dict Q;
  milestone_value : Q;
  achieved_milestones : list string;
  lounge_value : Q;
  welcome_value : Z;
  gross_benefits : Q;
  total_annual_spend : Z
}.
End Breakdown.

Module Analysis.
(** The dictionary [calculate_net_value] returns.  It has two shapes: an
    ineligible result carries [reason] and the empty breakdown [{}]
    (here [None]); an eligible one carries the other keys. *)
Record t : Type := {
  card_name : string;
  bank : string;
  card_type : option string;
  is_eligible : bool;
  net_value : Q;
  effective_reward_rate : option Q;
  reason : option string;
  breakdown : option Breakdown.t;
  why_recommended : option string;
  lounge_access : option string;
  description : option string
}.
End Analysis.

(** ** The calculator *)

Definition calculate_annual_spend (monthly_spends : dict Z) : dict Z :=
  map (fun '(category, amount) => (category, amount * 12)) monthly_spends.

(** [sum(spends.values())] *)
Definition calculate_total_spend (spends : dict Z) : Z :=
  fold_left Z.add (values spends) 0.

Definition check_eligibility (card : Card.t) (monthly_salary : Z) : bool :=
  card.(Card.min_salary_req) <=? monthly_salary.

Definition calculate_effective_fee (card : Card.t) (annual_spend : Z) : Z :=
  if card.(Card.fee_waiver_threshold) =? 0 then 0
  else if card.(Card.fee_waiver_threshold) <=? annual_spend then 0
  else card.(Card.annual_fee).

(** The rate the loop of [calculate_base_rewards] picks for a category. *)
Definition reward_rate (card : Card.t) (user_category : string) : Q :=
  if String.eqb user_category "general" then card.(Card.base_reward_rate)
  else dict_get card.(Card.category_multipliers) user_category
         card.(Card.base_reward_rate).

Definition calculate_base_rewards (card : Card.t) (annual_spends : dict Z)
  : Q * dict Q :=
  fold_left
    (fun '(total_rewards, category_rewards) '(user_category, amount) =>
       let reward_value := (inject_Z amount * reward_rate card user_category)%Q in
       ((total_rewards + reward_value)%Q,
        dict_set category_rewards user_category reward_value))
    annual_spends (0%Q, []).

Definition point_value (card : Card.t) : Q :=
  dict_get POINT_VALUATION card.(Card.bank) (25 # 100).

Definition milestone_text (threshold_int points : Z) (value : Q) : string :=
  fstring
    ["₹"; format_int true threshold_int; " spend → ";
     format_int true points; " points (₹"; format_fixed true 0 value; ")"].

Definition calculate_milestone_benefits (card : Card.t) (annual_spend : Z)
  : Q * list string :=
  fold_left
    (fun '(total_milestone_value, achieved_milestones) '(threshold, points) =>
       if threshold <=? annual_spend then
         let value := (inject_Z points * point_value card)%Q in
         ((total_milestone_value + value)%Q,
          achieved_milestones ++ [milestone_text threshold points value])
       else (total_milestone_value, achieved_milestones))
    card.(Card.milestone_benefits) (0%Q, []).

Definition LOUNGE_VALUE_PER_VISIT : Z := 1500.

Definition calculate_lounge_value (card : Card.t) (needs_lounge : bool) : Q :=
  if negb needs_lounge then 0%Q
  else
    let quarterly_visits := card.(Card.lounge_visits_per_quarter) in
    if 999 <=? quarterly_visits then inject_Z (12 * LOUNGE_VALUE_PER_VISIT)
    else
      let annual_visits := quarterly_visits * 4 in
      inject_Z (annual_visits * LOUNGE_VALUE_PER_VISIT).

(** [max(d, key=d.get)]: the first key whose value is maximal. *)
Definition max_key (d : dict Q) : option string :=
  match d with
  | [] => None
  | (k0, v0) :: d' =>
      Some (fst (fold_left
                   (fun '(bk, bv) '(k, v) =>
                      if Qlt_le_dec bv v then (k, v) else (bk, bv))
                   d' (k0, v0)))
  end.

(** The list [reasons] built at the end of [calculate_net_value]. *)
Definition recommendation_reasons (card : Card.t) (category_rewards : dict Q)
    (fee_waived : bool) (achieved_milestones : list string) (lounge_value : Q)
  : list string :=
  let reasons : list string := [] in
  let reasons :=
    match max_key category_rewards with
    | None => reasons
    | Some best_category =>
        let best_category_value := dict_get category_rewards best_category 0%Q in
        if Qlt_le_dec 0 best_category_value then
          let rate := dict_get card.(Card.category_multipliers) best_category
                        card.(Card.base_reward_rate) in
          reasons ++ [fstring
                        [format_fixed false 1 (rate * 100)%Q; "% rewards on ";
                         best_category; " spend"]]
        else reasons
    end in
  let reasons :=
    if fee_waived then
      reasons ++ [fstring
                    ["Fee waived (spend > ₹";
                     format_int true card.(Card.fee_waiver_threshold); ")"]]
    else if card.(Card.annual_fee) =? 0 then reasons ++ ["Lifetime free card"]
    else reasons in
  let reasons :=
    match achieved_milestones with
    | [] => reasons
    | _ :: _ =>
        reasons ++ [fstring
                      [format_int false (Z.of_nat (List.length achieved_milestones));
                       " milestone benefit(s) achieved"]]
    end in
  if Qlt_le_dec 0 lounge_value then
    let visits := card.(Card.lounge_visits_per_quarter) * 4 in
    if 999 <=? card.(Card.lounge_visits_per_quarter) then
      reasons ++ ["Unlimited lounge access"]
    else
      reasons ++ [fstring [format_int false visits; " lounge visits/year"]]
  else reasons.

Definition calculate_net_value (card : Card.t) (monthly_salary : Z)
    (monthly_spends : dict Z) (needs_lounge is_first_year : bool)
  : py Analysis.t :=
  let is_eligible := check_eligibility card monthly_salary in
  if negb is_eligible then
    Ok {| Analysis.card_name := card.(Card.card_name);
          Analysis.bank := card.(Card.bank);
          Analysis.card_type := None;
          Analysis.is_eligible := false;
          Analysis.net_value := 0%Q;
          Analysis.effective_reward_rate := None;
          Analysis.reason :=
            Some (fstring
                    ["Requires minimum salary of ₹";
                     format_int true card.(Card.min_salary_req); "/month"]);
          Analysis.breakdown := None;
          Analysis.why_recommended := None;
          Analysis.lounge_access := None;
          Analysis.description := None |}
  else
    let annual_spends := calculate_annual_spend monthly_spends in
    let total_annual_spend := calculate_total_spend annual_spends in
    let effective_fee := calculate_effective_fee card total_annual_spend in
    let fee_waived := (effective_fee =? 0) && (0 <? card.(Card.annual_fee)) in
    let '(total_rewards, category_rewards) :=
      calculate_base_rewards card annual_spends in
    let '(milestone_value, achieved_milestones) :=
      calculate_milestone_benefits card total_annual_spend in
    let lounge_value := calculate_lounge_value card needs_lounge in
    let welcome_value := if is_first_year then card.(Card.welcome_benefit) else 0 in
    let gross_benefits :=
      (total_rewards + milestone_value + lounge_value + inject_Z welcome_value)%Q in
    let net_value := (gross_benefits - inject_Z effective_fee)%Q in
    effective_reward_rate <-
      (if 0 <? total_annual_spend then
         ratio <- truediv total_rewards (inject_Z total_annual_spend) ;;
         Ok (ratio * 100)%Q
       else Ok 0%Q) ;;
    let reasons :=
      recommendation_reasons card category_rewards fee_waived
        achieved_milestones lounge_value in
    Ok {| Analysis.card_name := card.(Card.card_name);
          Analysis.bank := card.(Card.bank);
          Analysis.card_type := Some card.(Card.card_type);
          Analysis.is_eligible := true;
          Analysis.net_value := net_value;
          Analysis.effective_reward_rate := Some effective_reward_rate;
          Analysis.reason := None;
          Analysis.breakdown :=
            Some {| Breakdown.annual_fee := card.(Card.annual_fee);
                    Breakdown.effective_fee := effective_fee;
                    Breakdown.fee_waived := fee_waived;
                    Breakdown.total_rewards := total_rewards;
                    Breakdown.category_rewards := category_rewards;
                    Breakdown.milestone_value := milestone_value;
                    Breakdown.achieved_milestones := achieved_milestones;
                    Breakdown.lounge_value := lounge_value;
                    Breakdown.welcome_value := welcome_value;
                    Breakdown.gross_benefits := gross_benefits;
                    Breakdown.total_annual_spend := total_annual_spend |};
          Analysis.why_recommended :=
            Some (match reasons with
                  | [] => "Basic rewards on all spends"
                  | _ :: _ => String.concat " | " reasons
                  end);
          Analysis.lounge_access := Some card.(Card.lounge_access);
          Analysis.description := Some card.(Card.description) |}.

(** ** Ranking *)

(** [l.sort(key=key, reverse=True)]: a stable sort, largest key first;
    elements with equal keys keep the order they had in [l]. *)
Section Sort.
Context {A : Type} (key : A -> Q).

Fixpoint insert_desc (x : A) (l : list A) : list A :=
  match l with
  | [] => [x]
  | y :: l' =>
      if Qlt_le_dec (key x) (key y) then y :: insert_desc x l'
      else x :: y :: l'
  end.

Fixpoint sort_reverse (l : list A) : list A :=
  match l with
  | [] => []
  | x :: l' => insert_desc x (sort_reverse l')
  end.
End Sort.

(** The [for card in cards] loop of [rank_cards], with [results] threaded
    through it. *)
Fixpoint rank_loop (cards : list Card.t) (monthly_salary : Z)
    (monthly_spends : dict Z) (needs_lounge lifetime_free_only is_first_year : bool)
    (results : list Analysis.t) : py (list Analysis.t) :=
  match cards with
  | [] => Ok results
  | card :: cards' =>
      let continue results :=
        rank_loop cards' monthly_salary monthly_spends needs_lounge
          lifetime_free_only is_first_year results in
      if lifetime_free_only && (0 <? card.(Card.annual_fee)) then
        continue results
      else if needs_lounge && (card.(Card.lounge_visits_per_quarter) =? 0) then
        continue results
      else
        analysis <-
          calculate_net_value card monthly_salary monthly_spends needs_lounge
            is_first_year ;;
        if analysis.(Analysis.is_eligible) then continue (results ++ [analysis])
        else continue results
  end.

Definition rank_cards (cards : list Card.t) (monthly_salary : Z)
    (monthly_spends : dict Z) (needs_lounge lifetime_free_only is_first_year : bool)
  : py (list Analysis.t) :=
  results <-
    rank_loop cards monthly_salary monthly_spends needs_lounge
      lifetime_free_only is_first_year [] ;;
  Ok (sort_reverse Analysis.net_value results).

(** ** Profiles used in the examples *)

Definition five_spends (general travel dining online utilities : Z) : dict Z :=
  [("general", general); ("travel", travel); ("dining", dining);
   ("online", online); ("utilities", utilities)].

(** * Vocabulary of the properties *)

(** [d.get(k)]: [None] when the key is absent. *)
Fixpoint dict_find {V : Type} (d : dict V) (k : string) : option V :=
  match d with
  | [] => None
  | (k', v) :: d' => if String.eqb k' k then Some v else dict_find d' k
  end.

(** Largest key first. *)
Definition desc {A : Type} (key : A -> Q) (a b : A) : Prop :=
  (key b <= key a)%Q.

(** [r] is the valuation of [card] under the profile. *)
Definition valuation_of (monthly_salary : Z) (monthly_spends : dict Z)
    (needs_lounge is_first_year : bool) (card : Card.t) (r : Analysis.t)
  : Prop :=
  calculate_net_value card monthly_salary monthly_spends needs_lounge
    is_first_year = Ok r.

(** What an eligible valuation [r] with breakdown [b] holds, field by
    field, in terms of the functions that compute the parts. *)
Definition eligible_result (card : Card.t) (monthly_spends : dict Z)
    (needs_lounge is_first_year : bool) (r : Analysis.t) (b : Breakdown.t)
  : Prop :=
  let annual_spends := calculate_annual_spend monthly_spends in
  let total := calculate_total_spend annual_spends in
  r.(Analysis.is_eligible) = true
  /\ r.(Analysis.breakdown) = Some b
  /\ r.(Analysis.reason) = None
  /\ b.(Breakdown.annual_fee) = card.(Card.annual_fee)
  /\ b.(Breakdown.total_annual_spend) = total
  /\ b.(Breakdown.effective_fee) = calculate_effective_fee card total
  /\ b.(Breakdown.fee_waived)
     = (calculate_effective_fee card total =? 0) && (0 <? card.(Card.annual_fee))
  /\ (b.(Breakdown.total_rewards), b.(Breakdown.category_rewards))
     = calculate_base_rewards card annual_spends
  /\ (b.(Breakdown.milestone_value), b.(Breakdown.achieved_milestones))
     = calculate_milestone_benefits card total
  /\ b.(Breakdown.lounge_value) = calculate_lounge_value card needs_lounge
  /\ b.(Breakdown.welcome_value)
     = (if is_first_year then card.(Card.welcome_benefit) else 0)
  /\ b.(Breakdown.gross_benefits)
     = (b.(Breakdown.total_rewards) + b.(Breakdown.milestone_value)
        + b.(Breakdown.lounge_value) + inject_Z b.(Breakdown.welcome_value))%Q
  /\ r.(Analysis.net_value)
     = (b.(Breakdown.gross_benefits) - inject_Z b.(Breakdown.effective_fee))%Q
  /\ r.(Analysis.effective_reward_rate)
     = Some (if 0 <? total
             then (b.(Breakdown.total_rewards) / inject_Z total * 100)%Q
             else 0%Q).

(** The two optional filters, as the loop tests them. *)
Definition passes_filters (needs_lounge lifetime_free_only : bool)
    (card : Card.t) : bool :=
  negb (lifetime_free_only && (0 <? card.(Card.annual_fee)))
  && negb (needs_lounge && (card.(Card.lounge_visits_per_quarter) =? 0)).

(** The cards that reach [results]. *)
Definition kept (monthly_salary : Z) (needs_lounge lifetime_free_only : bool)
    (card : Card.t) : bool :=
  passes_filters needs_lounge lifetime_free_only card
  && check_eligibility card monthly_salary.

(** The ranges the catalog keeps for the two filtered fields: whole
    rupees and visit counts are never negative. *)
Definition filter_fields_valid (card : Card.t) : Prop :=
  0 <= card.(Card.annual_fee) /\ 0 <= card.(Card.lounge_visits_per_quarter).

(** The sum of a list of numbers. *)
Definition Qsum (l : list Q) : Q := fold_right Qplus 0%Q l.

(** The spend categories (the keys of [category_mapping] in
    [calculate_base_rewards]). *)
Definition category_mapping : dict string :=
  [("general", "base"); ("travel", "travel"); ("dining", "dining");
   ("online", "online"); ("utilities", "utilities")].

(** The reward of one item of the annual spends. *)
Definition reward_of (card : Card.t) (user_category : string) (amount : Z) : Q :=
  (inject_Z amount * reward_rate card user_category)%Q.

(** The rate of a category as the catalog gives it: the base rate for
    "general", else the card's multiplier when it has one, else the base
    rate. *)
Definition category_rate (card : Card.t) (category : string) : Q :=
  if String.eqb category "general" then card.(Card.base_reward_rate)
  else match dict_find card.(Card.category_multipliers) category with
       | Some multiplier => multiplier
       | None => card.(Card.base_reward_rate)
       end.

(** The milestones a spend reaches, in catalog order. *)
Definition reached (annual_spend : Z) (milestones : list (Z * Z))
  : list (Z * Z) :=
  filter (fun it => fst it <=? annual_spend) milestones.

(** The value of one milestone: its points at the bank's point value. *)
Definition milestone_worth (card : Card.t) (it : Z * Z) : Q :=
  (inject_Z (snd it) * point_value card)%Q.

(** The number a list of decimal digits stands for, least significant
    digit first. *)
Definition digits_value (ds : list ascii) : Z :=
  fold_right (fun c acc => Z.of_nat (nat_of_ascii c) - 48 + 10 * acc) 0 ds.

(** ** Catalog queries ([data/credit_cards.py]) *)

Definition get_all_cards : list Card.t := CREDIT_CARDS.

Definition get_lifetime_free_cards : list Card.t :=
  filter (fun card => card.(Card.annual_fee) =? 0) CREDIT_CARDS.

Definition get_eligible_cards (monthly_salary : Z) : list Card.t :=
  filter (fun card => card.(Card.min_salary_req) <=? monthly_salary) CREDIT_CARDS.

Definition get_cards_with_lounge_access : list Card.t :=
  filter (fun card => 0 <? card.(Card.lounge_visits_per_quarter)) CREDIT_CARDS.

(** ** Ranges of the inputs *)

(** No monthly spend is negative. *)
Definition spends_nonneg (monthly_spends : dict Z) : Prop :=
  Forall (fun amount => 0 <= amount) (values monthly_spends).

(** No reward rate of the card is negative. *)
Definition rates_nonneg (card : Card.t) : Prop :=
  (0 <= card.(Card.base_reward_rate))%Q
  /\ Forall (fun rate => (0 <= rate)%Q) (values card.(Card.category_multipliers)).

(** No reward rate of the card is above 1. *)
Definition rates_at_most_one (card : Card.t) : Prop :=
  (card.(Card.base_reward_rate) <= 1)%Q
  /\ Forall (fun rate => (rate <= 1)%Q) (values card.(Card.category_multipliers)).

(** No milestone of the card grants a negative number of points. *)
Definition points_nonneg (card : Card.t) : Prop :=
  Forall (fun it => 0 <= snd it) card.(Card.milestone_benefits).

(** [l] is [l'] with some elements left out, the others in their order. *)
Inductive subseq {A : Type} : list A -> list A -> Prop :=
| subseq_nil : subseq [] []
| subseq_skip (x : A) (l l' : list A) : subseq l l' -> subseq l (x :: l')
| subseq_take (x : A) (l l' : list A) : subseq l l' -> subseq (x :: l) (x :: l').

(** The result of [calculate_net_value] as a value; the valuation never
    raises ([calculate_net_value_valuation]), the other branch is there
    for totality only. *)
Definition valuation (monthly_salary : Z) (monthly_spends : dict Z)
    (needs_lounge is_first_year : bool) (card : Card.t) : Analysis.t :=
  match calculate_net_value card monthly_salary monthly_spends needs_lounge
          is_first_year with
  | Ok r => r
  | Raise _ =>
      {| Analysis.card_name := card.(Card.card_name);
         Analysis.bank := card.(Card.bank);
         Analysis.card_type := None;
         Analysis.is_eligible := false;
         Analysis.net_value := 0%Q;
         Analysis.effective_reward_rate := None;
         Analysis.reason := None;
         Analysis.breakdown := None;
         Analysis.why_recommended := None;
         Analysis.lounge_access := None;
         Analysis.description := None |}
  end.

(** [monthly_spends'] has the categories of [monthly_spends], in the same
    order, with amounts at least as large. *)
Definition spends_le (monthly_spends monthly_spends' : dict Z) : Prop :=
  Forall2 (fun it it' => fst it = fst it' /\ snd it <= snd it')
    monthly_spends monthly_spends'.

(** The sum of a list of integers. *)
Definition Zsum (l : list Z) : Z := fold_right Z.add 0 l.

(** * Properties *)

(** ** Number formatting *)

Example format_int_300000 : format_int true 300000 = "300,000".
Proof. reflexivity. Qed.
Example format_int_1500000 : format_int true 1500000 = "1,500,000".
Proof. reflexivity. Qed.
Example format_int_999 : format_int true 999 = "999".
Proof. reflexivity. Qed.
Example format_int_0 : format_int true 0 = "0".
Proof. reflexivity. Qed.
Example format_int_neg : format_int true (-1234) = "-1,234".
Proof. reflexivity. Qed.
Example format_fixed_rate : format_fixed false 1 (33 # 10) = "3.3".
Proof. reflexivity. Qed.
Example format_fixed_rate2 : format_fixed false 1 ((5 # 100) * 100)%Q = "5.0".
Proof. reflexivity. Qed.
Example format_fixed_value : format_fixed true 0 (12500 # 1) = "12,500".
Proof. reflexivity. Qed.
Example format_fixed_half : format_fixed false 1 (125 # 100) = "1.2".
Proof. reflexivity. Qed.
Example format_fixed_small : format_fixed false 2 (5 # 100) = "0.05".
Proof. reflexivity. Qed.
Example rupee : String.length "₹" = 3%nat.
Proof. reflexivity. Qed.

Lemma digit_char_value (d : Z) :
  0 <= d < 10 -> Z.of_nat (nat_of_ascii (digit_char d)) - 48 = d.
Proof.
  intros Hd. unfold digit_char. rewrite nat_ascii_embedding; lia.
Qed.

(** The fuel of [format_int] is enough: no digit is lost. *)
Lemma digits_rev_value (fuel : nat) :
  forall n, 0 <= n -> (Z.to_nat (Z.log2 n) < fuel)%nat ->
  digits_value (digits_rev fuel n) = n.
Proof.
  induction fuel as [|fuel IH]; intros n Hn Hf; [lia|].
  cbn [digits_rev]. destruct (Z.ltb_spec n 10) as [Hlt|Hge].
  - unfold digits_value. cbn [fold_right]. rewrite digit_char_value; lia.
  - unfold digits_value. cbn [fold_right].
    fold (digits_value (digits_rev fuel (n / 10))).
    rewrite digit_char_value by (apply Z.mod_pos_bound; lia).
    rewrite IH.
    + pose proof (Z.div_mod n 10 ltac:(lia)). lia.
    + apply Z.div_pos; lia.
    + pose proof (Z.log2_nonneg (n / 10)). pose proof (Z.log2_nonneg n).
      assert (Z.log2 (n / 10) < Z.log2 n); [|lia].
      assert (Hm : 0 < n / 10) by (apply Z.div_str_pos; lia).
      assert (H2 : 2 * (n / 10) <= n)
        by (pose proof (Z.mul_div_le n 10 ltac:(lia)); lia).
      apply Z.log2_le_mono in H2. rewrite Z.log2_double in H2 by exact Hm.
      lia.
Qed.

(** Grouping only adds commas. *)
Lemma group3_digits (ds : list ascii) :
  forall i,
  Forall (fun c => c <> ","%char) ds ->
  filter (fun c => negb (Ascii.eqb c ","%char)) (group3 i ds) = ds.
Proof.
  induction ds as [|d ds IH]; intros i Hds; [reflexivity|].
  inversion Hds as [|? ? Hd Hds']; subst.
  assert (E : negb (Ascii.eqb d ","%char) = true).
  { destruct (Ascii.eqb_spec d ","%char); [contradiction|reflexivity]. }
  cbn [group3].
  destruct i as [|[|[|[|i]]]]; cbn [filter Ascii.eqb negb]; rewrite ?E; cbn;
    rewrite ?E; rewrite IH by assumption; reflexivity.
Qed.

Lemma digits_rev_no_comma (fuel : nat) :
  forall n, 0 <= n -> Forall (fun c => c <> ","%char) (digits_rev fuel n).
Proof.
  assert (Hd : forall d, 0 <= d < 10 -> digit_char d <> ","%char).
  { intros d Hd E. apply (f_equal nat_of_ascii) in E.
    unfold digit_char in E. rewrite nat_ascii_embedding in E by lia.
    cbn in E. lia. }
  induction fuel as [|fuel IH]; intros n Hn; cbn [digits_rev]; [constructor|].
  destruct (Z.ltb_spec n 10).
  - constructor; [apply Hd; lia|constructor].
  - constructor.
    + apply Hd, Z.mod_pos_bound. lia.
    + apply IH, Z.div_pos; lia.
Qed.

(** The text of a non-negative [int]: its digits, which stand for it,
    with or without the commas. *)
Lemma format_int_nonneg (comma : bool) (n : Z) :
  0 <= n ->
  let ds := digits_rev (digits_fuel n) n in
  format_int comma n
  = string_of_chars (rev (if comma then group3 0 ds else ds))
  /\ digits_value ds = n
  /\ filter (fun c => negb (Ascii.eqb c ","%char)) (group3 0 ds) = ds.
Proof.
  intros Hn ds. split; [|split].
  - unfold format_int, fstring. rewrite Z.abs_eq by exact Hn.
    destruct (Z.ltb_spec n 0); [lia|]. reflexivity.
  - apply digits_rev_value; [exact Hn|]. unfold digits_fuel. lia.
  - apply group3_digits, digits_rev_no_comma, Hn.
Qed.

(** ** The monad and division *)

Lemma truediv_positive (a : Q) (n : Z) :
  0 < n -> truediv a (inject_Z n) = Ok (a / inject_Z n)%Q.
Proof.
  intros Hn. unfold truediv.
  destruct (Qeq_bool (inject_Z n) 0) eqn:E; [|reflexivity].
  apply Qeq_bool_iff in E. unfold Qeq, inject_Z in E. simpl in E. lia.
Qed.

(** The guarded division of [calculate_net_value] always yields a value. *)
Lemma guarded_rate_ok (total_rewards : Q) (total_annual_spend : Z) :
  (if 0 <? total_annual_spend then
     ratio <- truediv total_rewards (inject_Z total_annual_spend) ;;
     Ok (ratio * 100)%Q
   else Ok 0%Q)
  = Ok (if 0 <? total_annual_spend
        then (total_rewards / inject_Z total_annual_spend * 100)%Q
        else 0%Q).
Proof.
  destruct (0 <? total_annual_spend) eqn:E; [|reflexivity].
  apply Z.ltb_lt in E. rewrite truediv_positive by assumption. reflexivity.
Qed.

(** ** Shape of the valuation *)

Lemma calculate_net_value_eligible (card : Card.t) (monthly_salary : Z)
    (monthly_spends : dict Z) (needs_lounge is_first_year : bool) :
  check_eligibility card monthly_salary = true ->
  exists r b,
    calculate_net_value card monthly_salary monthly_spends needs_lounge
      is_first_year = Ok r
    /\ eligible_result card monthly_spends needs_lounge is_first_year r b.
Proof.
  intros He. unfold calculate_net_value. rewrite He. cbn [negb].
  destruct (calculate_base_rewards card (calculate_annual_spend monthly_spends))
    as [total_rewards category_rewards] eqn:Er.
  destruct (calculate_milestone_benefits card
              (calculate_total_spend (calculate_annual_spend monthly_spends)))
    as [milestone_value achieved_milestones] eqn:Em.
  rewrite guarded_rate_ok. cbn [bind].
  eexists. eexists. split; [reflexivity|].
  unfold eligible_result. cbn.
  rewrite Er, Em. repeat split; reflexivity.
Qed.

Lemma calculate_net_value_ineligible (card : Card.t) (monthly_salary : Z)
    (monthly_spends : dict Z) (needs_lounge is_first_year : bool) :
  check_eligibility card monthly_salary = false ->
  calculate_net_value card monthly_salary monthly_spends needs_lounge
    is_first_year
  = Ok {| Analysis.card_name := card.(Card.card_name);
          Analysis.bank := card.(Card.bank);
          Analysis.card_type := None;
          Analysis.is_eligible := false;
          Analysis.net_value := 0%Q;
          Analysis.effective_reward_rate := None;
          Analysis.reason :=
            Some (fstring
                    ["Requires minimum salary of ₹";
                     format_int true card.(Card.min_salary_req); "/month"]);
          Analysis.breakdown := None;
          Analysis.why_recommended := None;
          Analysis.lounge_access := None;
          Analysis.description := None |}.
Proof.
  intros He. unfold calculate_net_value. rewrite He. reflexivity.
Qed.

(** The valuation never raises, and its flag is the eligibility test. *)
Lemma calculate_net_value_ok (card : Card.t) (monthly_salary : Z)
    (monthly_spends : dict Z) (needs_lounge is_first_year : bool) :
  exists r,
    calculate_net_value card monthly_salary monthly_spends needs_lounge
      is_first_year = Ok r
    /\ r.(Analysis.is_eligible) = check_eligibility card monthly_salary.
Proof.
  destruct (check_eligibility card monthly_salary) eqn:He.
  - destruct (calculate_net_value_eligible card monthly_salary monthly_spends
                needs_lounge is_first_year He) as (r & b & Hr & Hb).
    exists r. split; [exact Hr|]. apply Hb.
  - rewrite calculate_net_value_ineligible by assumption.
    eexists. split; reflexivity.
Qed.

(** ** Effective fee and the waiver flag *)

(** C9: a card whose [fee_waiver_threshold] is 0 has effective fee 0 at
    every annual spend, whatever its stated annual fee. *)
Theorem zero_threshold_effective_fee (card : Card.t) (annual_spend : Z) :
  card.(Card.fee_waiver_threshold) = 0 ->
  calculate_effective_fee card annual_spend = 0.
Proof.
  intros H. unfold calculate_effective_fee. rewrite H. reflexivity.
Qed.

Lemma zero_threshold_effective_fee_witness :
  Amex_Platinum_Travel.(Card.fee_waiver_threshold) = 0
  /\ Amex_Platinum_Travel.(Card.annual_fee) = 3500
  /\ calculate_effective_fee Amex_Platinum_Travel 0 = 0.
Proof.
  split; [reflexivity|]. split; [reflexivity|].
  apply (zero_threshold_effective_fee Amex_Platinum_Travel 0). reflexivity.
Defined.

(** When the flag of an eligible valuation is set: the stated fee is
    positive and the effective fee is 0, be it by spend or by a zero
    threshold. *)
Lemma fee_waived_iff (card : Card.t) (monthly_spends : dict Z)
    (needs_lounge is_first_year : bool) (r : Analysis.t) (b : Breakdown.t) :
  eligible_result card monthly_spends needs_lounge is_first_year r b ->
  b.(Breakdown.fee_waived) = true
  <-> 0 < card.(Card.annual_fee)
      /\ (card.(Card.fee_waiver_threshold) = 0
          \/ card.(Card.fee_waiver_threshold) <= b.(Breakdown.total_annual_spend)).
Proof.
  intros (_ & _ & _ & _ & Ht & _ & Hw & _). rewrite Hw, Ht.
  unfold calculate_effective_fee.
  destruct (Z.eqb_spec card.(Card.fee_waiver_threshold) 0) as [E0|E0];
    [|destruct (Z.leb_spec card.(Card.fee_waiver_threshold)
                 (calculate_total_spend (calculate_annual_spend monthly_spends)))];
    rewrite andb_true_iff, Z.ltb_lt, ?Z.eqb_eq; lia.
Qed.

(** The annual total the valuation works with is 12 times the sum of the
    monthly amounts of the profile. *)
Lemma calculate_total_spend_Zsum (monthly_spends : dict Z) :
  calculate_total_spend (calculate_annual_spend monthly_spends)
  = 12 * Zsum (values monthly_spends).
Proof.
  unfold calculate_total_spend, calculate_annual_spend, values, Zsum.
  rewrite map_map.
  assert (H : forall a,
             fold_left Z.add
               (map (fun x : string * Z => snd (let '(category, amount) := x in
                                                (category, amount * 12)))
                  monthly_spends) a
             = a + 12 * fold_right Z.add 0 (map snd monthly_spends)).
  { induction monthly_spends as [|[k x] d IH]; intros a;
      cbn [map snd fold_left fold_right]; [lia|].
    rewrite IH. lia. }
  rewrite H. lia.
Qed.

(** C1 (as the code has it): for an eligible profile the breakdown's
    [fee_waived] is true exactly when the stated annual fee is positive and
    the fee is not charged, that is when the threshold is 0 or the total
    annual spend (12 times the monthly amounts) reaches it; then the
    effective fee is 0, and a card with no stated fee is never flagged. *)
Theorem fee_waived_exactly_when (card : Card.t) (monthly_salary : Z)
    (monthly_spends : dict Z) (needs_lounge is_first_year : bool) :
  card.(Card.min_salary_req) <= monthly_salary ->
  exists r b,
    calculate_net_value card monthly_salary monthly_spends needs_lounge
      is_first_year = Ok r
    /\ r.(Analysis.breakdown) = Some b
    /\ b.(Breakdown.total_annual_spend) = 12 * Zsum (values monthly_spends)
    /\ (b.(Breakdown.fee_waived) = true
        <-> 0 < card.(Card.annual_fee)
            /\ (card.(Card.fee_waiver_threshold) = 0
                \/ card.(Card.fee_waiver_threshold)
                   <= 12 * Zsum (values monthly_spends)))
    /\ (b.(Breakdown.fee_waived) = true -> b.(Breakdown.effective_fee) = 0)
    /\ (card.(Card.annual_fee) = 0 -> b.(Breakdown.fee_waived) = false).
Proof.
  intros Hs. apply Z.leb_le in Hs.
  destruct (calculate_net_value_eligible card monthly_salary monthly_spends
              needs_lounge is_first_year Hs) as (r & b & Hr & Hb).
  pose proof (fee_waived_iff _ _ _ _ _ _ Hb) as Hiff.
  destruct Hb as (_ & Hbd & _ & _ & Ht & Hfee & Hw & _).
  rewrite calculate_total_spend_Zsum in Ht.
  exists r, b. split; [exact Hr|]. split; [exact Hbd|]. split; [exact Ht|].
  split; [rewrite <- Ht; exact Hiff|]. split.
  - rewrite Hw, Hfee, andb_true_iff, Z.eqb_eq. tauto.
  - intros H0. rewrite Hw, H0. apply andb_false_r.
Qed.

Lemma fee_waived_exactly_when_witness :
  Axis_Flipkart.(Card.min_salary_req) <= 75000
  /\ exists r b,
       calculate_net_value Axis_Flipkart 75000
         (five_spends 15000 5000 5000 10000 5000) false true = Ok r
       /\ r.(Analysis.breakdown) = Some b
       /\ b.(Breakdown.total_annual_spend) = 480000
       /\ b.(Breakdown.fee_waived) = true
       /\ b.(Breakdown.effective_fee) = 0.
Proof.
  assert (H : Axis_Flipkart.(Card.min_salary_req) <= 75000)
    by (vm_compute; discriminate).
  split; [exact H|].
  destruct (fee_waived_exactly_when Axis_Flipkart 75000
              (five_spends 15000 5000 5000 10000 5000) false true H)
    as (r & b & Hr & Hb & Ht & Hiff & Hfee & _).
  assert (Hw : b.(Breakdown.fee_waived) = true).
  { apply Hiff. split; [reflexivity|left; reflexivity]. }
  exists r, b. split; [exact Hr|]. split; [exact Hb|]. split; [exact Ht|].
  split; [exact Hw|exact (Hfee Hw)].
Defined.

(** C1 as it was stated fails: Axis Flipkart has threshold 0 and a stated
    fee of 500, and its valuation has [fee_waived = true], which the
    stated condition (threshold positive and reached, fee positive)
    excludes. *)
Lemma fee_waived_stated_condition_fails :
  exists r b,
    calculate_net_value Axis_Flipkart 75000
      (five_spends 15000 5000 5000 10000 5000) false true = Ok r
    /\ r.(Analysis.breakdown) = Some b
    /\ ~ (b.(Breakdown.fee_waived) = true
          <-> 0 < Axis_Flipkart.(Card.fee_waiver_threshold)
              /\ Axis_Flipkart.(Card.fee_waiver_threshold)
                 <= b.(Breakdown.total_annual_spend)
              /\ 0 < Axis_Flipkart.(Card.annual_fee)).
Proof.
  eexists. eexists. split; [vm_compute; reflexivity|].
  split; [reflexivity|]. cbn. intros [H _].
  destruct (H eq_refl) as [H0 _]. discriminate H0.
Qed.

(** The code at cards with threshold 0 and a positive stated fee:
    for Axis Flipkart, marked lifetime free in the catalog, the breakdown
    has [fee_waived = true] and the explanation reads "Fee waived", not
    "Lifetime free card"; so it does at a spend of 0, where the
    explanation cites a spend above ₹0, and for Amex Platinum Travel,
    whose threshold the catalog comments as "No fee waiver". *)
Theorem axis_flipkart_reported_waived :
  Axis_Flipkart.(Card.fee_waiver_threshold) = 0
  /\ Axis_Flipkart.(Card.annual_fee) = 500
  /\ (exists r b,
        calculate_net_value Axis_Flipkart 75000
          (five_spends 15000 5000 5000 10000 5000) false true = Ok r
        /\ r.(Analysis.breakdown) = Some b
        /\ b.(Breakdown.effective_fee) = 0
        /\ b.(Breakdown.fee_waived) = true
        /\ r.(Analysis.why_recommended)
           = Some "5.0% rewards on online spend | Fee waived (spend > ₹0)")
  /\ (exists r b,
        calculate_net_value Axis_Flipkart 75000 (five_spends 0 0 0 0 0)
          false true = Ok r
        /\ r.(Analysis.breakdown) = Some b
        /\ b.(Breakdown.total_annual_spend) = 0
        /\ b.(Breakdown.fee_waived) = true
        /\ r.(Analysis.why_recommended) = Some "Fee waived (spend > ₹0)")
  /\ (exists r b,
        calculate_net_value Amex_Platinum_Travel 75000 (five_spends 0 0 0 0 0)
          false false = Ok r
        /\ r.(Analysis.breakdown) = Some b
        /\ b.(Breakdown.annual_fee) = 3500
        /\ b.(Breakdown.effective_fee) = 0
        /\ b.(Breakdown.fee_waived) = true).
Proof.
  split; [reflexivity|]. split; [reflexivity|].
  repeat split; eexists; eexists; (split; [vm_compute; reflexivity|]);
    cbn; repeat split; reflexivity.
Qed.

(** ** Net value *)

(** C2: the net value of an eligible valuation is total rewards plus
    milestone value plus lounge value plus welcome value, minus the
    effective fee; the welcome value is the card's [welcome_benefit] in the
    first year and 0 otherwise, added as it stands. *)
Theorem net_value_formula (card : Card.t) (monthly_salary : Z)
    (monthly_spends : dict Z) (needs_lounge is_first_year : bool) :
  card.(Card.min_salary_req) <= monthly_salary ->
  exists r b,
    calculate_net_value card monthly_salary monthly_spends needs_lounge
      is_first_year = Ok r
    /\ r.(Analysis.breakdown) = Some b
    /\ r.(Analysis.net_value)
       = (b.(Breakdown.total_rewards) + b.(Breakdown.milestone_value)
          + b.(Breakdown.lounge_value) + inject_Z b.(Breakdown.welcome_value)
          - inject_Z b.(Breakdown.effective_fee))%Q
    /\ b.(Breakdown.welcome_value)
       = (if is_first_year then card.(Card.welcome_benefit) else 0)
    /\ (let annual_spends := calculate_annual_spend monthly_spends in
        let total := calculate_total_spend annual_spends in
        b.(Breakdown.total_rewards)
          = fst (calculate_base_rewards card annual_spends)
        /\ b.(Breakdown.milestone_value)
          = fst (calculate_milestone_benefits card total)
        /\ b.(Breakdown.lounge_value) = calculate_lounge_value card needs_lounge
        /\ b.(Breakdown.effective_fee) = calculate_effective_fee card total).
Proof.
  intros Hs. apply Z.leb_le in Hs.
  destruct (calculate_net_value_eligible card monthly_salary monthly_spends
              needs_lounge is_first_year Hs) as (r & b & Hr & Hb).
  destruct Hb as (_ & Hbd & _ & _ & _ & Hfee & _ & Hrew & Hmil & Hl & Hw & Hg & Hn & _).
  exists r, b. split; [exact Hr|]. split; [exact Hbd|].
  split; [rewrite Hn, Hg; reflexivity|]. split; [exact Hw|].
  cbv zeta. rewrite <- Hrew, <- Hmil. cbn [fst]. auto.
Qed.

Lemma net_value_formula_witness :
  HDFC_Infinia.(Card.min_salary_req) <= 500000
  /\ exists r b,
       calculate_net_value HDFC_Infinia 500000 (five_spends 15000 0 0 0 0)
         true true = Ok r
       /\ r.(Analysis.breakdown) = Some b
       /\ r.(Analysis.net_value)
          = (b.(Breakdown.total_rewards) + b.(Breakdown.milestone_value)
             + b.(Breakdown.lounge_value) + inject_Z b.(Breakdown.welcome_value)
             - inject_Z b.(Breakdown.effective_fee))%Q
       /\ b.(Breakdown.welcome_value) = 12500.
Proof.
  assert (H : HDFC_Infinia.(Card.min_salary_req) <= 500000) by (vm_compute; discriminate).
  split; [exact H|].
  destruct (net_value_formula HDFC_Infinia 500000 (five_spends 15000 0 0 0 0)
              true true H) as (r & b & Hr & Hb & Hn & Hw & _).
  exists r, b. repeat split; assumption.
Defined.

(** ** Eligibility *)

(** C7: below the card's minimum salary the valuation is the ineligible
    result (flag false, net value 0, a reason naming the minimum salary,
    the empty breakdown) and does not depend on the spends or the flags;
    from the minimum salary on it is eligible and carries a breakdown with
    every field. *)
Theorem eligibility_gate (card : Card.t) (monthly_salary : Z)
    (monthly_spends : dict Z) (needs_lounge is_first_year : bool) :
  (monthly_salary < card.(Card.min_salary_req) ->
   exists r,
     calculate_net_value card monthly_salary monthly_spends needs_lounge
       is_first_year = Ok r
     /\ r.(Analysis.is_eligible) = false
     /\ r.(Analysis.net_value) = 0%Q
     /\ r.(Analysis.reason)
        = Some (fstring
                  ["Requires minimum salary of ₹";
                   format_int true card.(Card.min_salary_req); "/month"])
     /\ r.(Analysis.breakdown) = None
     /\ forall monthly_spends' needs_lounge' is_first_year',
          calculate_net_value card monthly_salary monthly_spends'
            needs_lounge' is_first_year' = Ok r)
  /\ (card.(Card.min_salary_req) <= monthly_salary ->
      exists r b,
        calculate_net_value card monthly_salary monthly_spends needs_lounge
          is_first_year = Ok r
        /\ r.(Analysis.is_eligible) = true
        /\ r.(Analysis.breakdown) = Some b
        /\ eligible_result card monthly_spends needs_lounge is_first_year r b).
Proof.
  split; intros Hs.
  - assert (He : check_eligibility card monthly_salary = false)
      by (apply Z.leb_gt; exact Hs).
    eexists. split; [apply calculate_net_value_ineligible; exact He|].
    cbn. repeat split.
    intros. apply calculate_net_value_ineligible; exact He.
  - assert (He : check_eligibility card monthly_salary = true)
      by (apply Z.leb_le; exact Hs).
    destruct (calculate_net_value_eligible card monthly_salary monthly_spends
                needs_lounge is_first_year He) as (r & b & Hr & Hb).
    exists r, b. split; [exact Hr|]. split; [apply Hb|]. split; [apply Hb|exact Hb].
Qed.

Lemma eligibility_gate_witness :
  (75000 < HDFC_Infinia.(Card.min_salary_req)
   /\ exists r,
        calculate_net_value HDFC_Infinia 75000
          (five_spends 15000 5000 5000 10000 5000) false true = Ok r
        /\ r.(Analysis.is_eligible) = false
        /\ r.(Analysis.reason)
           = Some "Requires minimum salary of ₹300,000/month"
        /\ r.(Analysis.breakdown) = None)
  /\ (SBI_SimplyCLICK.(Card.min_salary_req) <= 75000
      /\ exists r b,
           calculate_net_value SBI_SimplyCLICK 75000
             (five_spends 15000 5000 5000 10000 5000) false true = Ok r
           /\ r.(Analysis.is_eligible) = true
           /\ r.(Analysis.breakdown) = Some b).
Proof.
  split.
  - assert (H : 75000 < HDFC_Infinia.(Card.min_salary_req)) by reflexivity.
    split; [exact H|].
    destruct (proj1 (eligibility_gate HDFC_Infinia 75000
                       (five_spends 15000 5000 5000 10000 5000) false true) H)
      as (r & Hr & He & _ & Hreason & Hb & _).
    exists r. repeat split; assumption.
  - assert (H : SBI_SimplyCLICK.(Card.min_salary_req) <= 75000)
      by (vm_compute; discriminate).
    split; [exact H|].
    destruct (proj2 (eligibility_gate SBI_SimplyCLICK 75000
                       (five_spends 15000 5000 5000 10000 5000) false true) H)
      as (r & b & Hr & He & Hb & _).
    exists r, b. repeat split; assumption.
Defined.

(** ** The sort *)

Section SortFacts.
Context {A : Type} (key : A -> Q).

Lemma insert_desc_perm (x : A) (l : list A) :
  Permutation (x :: l) (insert_desc key x l).
Proof.
  induction l as [|y l IH]; cbn; [reflexivity|].
  destruct (Qlt_le_dec (key x) (key y)); [|reflexivity].
  rewrite perm_swap. now apply perm_skip.
Qed.

Lemma sort_reverse_perm (l : list A) : Permutation l (sort_reverse key l).
Proof.
  induction l as [|x l IH]; cbn; [reflexivity|].
  rewrite <- insert_desc_perm. now apply perm_skip.
Qed.

Lemma insert_desc_sorted (x : A) (l : list A) :
  StronglySorted (desc key) l -> StronglySorted (desc key) (insert_desc key x l).
Proof.
  induction 1 as [|y l Hl IH Hy]; cbn.
  - constructor; constructor.
  - destruct (Qlt_le_dec (key x) (key y)) as [Hlt|Hle].
    + constructor; [exact IH|].
      apply (Permutation_Forall (insert_desc_perm x l)).
      constructor; [apply Qlt_le_weak, Hlt|exact Hy].
    + constructor; [constructor; assumption|].
      constructor; [exact Hle|].
      apply (Forall_impl _ (P := desc key y)); [|exact Hy].
      intros z Hz. unfold desc in *. now apply Qle_trans with (key y).
Qed.

Lemma sort_reverse_sorted (l : list A) : StronglySorted (desc key) (sort_reverse key l).
Proof.
  induction l; cbn; [constructor|now apply insert_desc_sorted].
Qed.

(** Stability: the elements of any one key value come out in the order
    they went in. *)
Lemma insert_desc_stable (v : Q) (x : A) (l : list A) :
  filter (fun a => Qeq_bool (key a) v) (insert_desc key x l)
  = filter (fun a => Qeq_bool (key a) v) (x :: l).
Proof.
  induction l as [|y l IH]; [reflexivity|].
  cbn [insert_desc]. destruct (Qlt_le_dec (key x) (key y)) as [Hlt|Hle];
    [|reflexivity].
  cbn [filter] in *. rewrite IH.
  destruct (Qeq_bool (key x) v) eqn:Ex; [|reflexivity].
  destruct (Qeq_bool (key y) v) eqn:Ey; [|reflexivity].
  apply Qeq_bool_iff in Ex, Ey. rewrite Ex, Ey in Hlt.
  now apply Qlt_irrefl in Hlt.
Qed.

Lemma sort_reverse_stable (v : Q) (l : list A) :
  filter (fun a => Qeq_bool (key a) v) (sort_reverse key l)
  = filter (fun a => Qeq_bool (key a) v) l.
Proof.
  induction l as [|x l IH]; [reflexivity|].
  cbn [sort_reverse]. rewrite insert_desc_stable. cbn [filter].
  now rewrite IH.
Qed.
End SortFacts.

(** ** The ranking loop *)

Section Ranking.
Variables (monthly_salary : Z) (monthly_spends : dict Z).
Variables (needs_lounge lifetime_free_only is_first_year : bool).

(** The loop never raises and appends to [results], in input order, the
    valuation of each kept card. *)
Lemma rank_loop_spec (cards : list Card.t) :
  forall results,
  exists rs,
    rank_loop cards monthly_salary monthly_spends needs_lounge
      lifetime_free_only is_first_year results = Ok (results ++ rs)
    /\ Forall2
         (valuation_of monthly_salary monthly_spends needs_lounge is_first_year)
         (filter (kept monthly_salary needs_lounge lifetime_free_only) cards)
         rs.
Proof.
  induction cards as [|card cards IH]; intros results.
  - exists []. rewrite app_nil_r. split; [reflexivity|constructor].
  - cbn [rank_loop filter]. unfold kept at 1, passes_filters.
    destruct (lifetime_free_only && (0 <? card.(Card.annual_fee))).
    { exact (IH results). }
    destruct (needs_lounge && (Card.lounge_visits_per_quarter card =? 0)).
    { exact (IH results). }
    cbn [negb andb].
    destruct (calculate_net_value_ok card monthly_salary monthly_spends
                needs_lounge is_first_year) as (r & Hr & He).
    rewrite Hr. cbn [bind]. rewrite He.
    destruct (check_eligibility card monthly_salary).
    + destruct (IH (results ++ [r])) as (rs & Hrs & Hall).
      exists (r :: rs). rewrite Hrs, <- app_assoc. split; [reflexivity|].
      constructor; assumption.
    + exact (IH results).
Qed.

(** The ranking is the stable sort of those valuations. *)
Lemma rank_cards_spec (cards : list Card.t) :
  exists results,
    Forall2
      (valuation_of monthly_salary monthly_spends needs_lounge is_first_year)
      (filter (kept monthly_salary needs_lounge lifetime_free_only) cards)
      results
    /\ rank_cards cards monthly_salary monthly_spends needs_lounge
         lifetime_free_only is_first_year
       = Ok (sort_reverse Analysis.net_value results).
Proof.
  destruct (rank_loop_spec cards []) as (rs & Hrs & Hall).
  exists rs. split; [exact Hall|].
  unfold rank_cards. rewrite Hrs. reflexivity.
Qed.
End Ranking.

(** C3: the ranking is in descending order of net value, and the results
    of any one net value appear in the order of their cards in the input. *)
Theorem ranking_sorted_stable (cards : list Card.t) (monthly_salary : Z)
    (monthly_spends : dict Z)
    (needs_lounge lifetime_free_only is_first_year : bool) :
  exists results ranked,
    Forall2 (valuation_of monthly_salary monthly_spends needs_lounge is_first_year)
      (filter (kept monthly_salary needs_lounge lifetime_free_only) cards)
      results
    /\ rank_cards cards monthly_salary monthly_spends needs_lounge
         lifetime_free_only is_first_year = Ok ranked
    /\ StronglySorted
         (fun a b => (b.(Analysis.net_value) <= a.(Analysis.net_value))%Q)
         ranked
    /\ forall v : Q,
         filter (fun r => Qeq_bool r.(Analysis.net_value) v) ranked
         = filter (fun r => Qeq_bool r.(Analysis.net_value) v) results.
Proof.
  destruct (rank_cards_spec monthly_salary monthly_spends needs_lounge
              lifetime_free_only is_first_year cards) as (results & Hall & Hr).
  exists results, (sort_reverse Analysis.net_value results).
  split; [exact Hall|]. split; [exact Hr|]. split.
  - apply (sort_reverse_sorted Analysis.net_value).
  - intros v. apply sort_reverse_stable.
Qed.

(** C10: the ranking holds exactly one result for each input card that
    passes both filters and is eligible, and nothing else; it is no longer
    than the input. *)
Theorem ranking_one_result_per_kept_card (cards : list Card.t)
    (monthly_salary : Z) (monthly_spends : dict Z)
    (needs_lounge lifetime_free_only is_first_year : bool) :
  exists results ranked,
    Forall2 (valuation_of monthly_salary monthly_spends needs_lounge is_first_year)
      (filter (kept monthly_salary needs_lounge lifetime_free_only) cards)
      results
    /\ rank_cards cards monthly_salary monthly_spends needs_lounge
         lifetime_free_only is_first_year = Ok ranked
    /\ Permutation results ranked
    /\ (List.length ranked <= List.length cards)%nat.
Proof.
  destruct (rank_cards_spec monthly_salary monthly_spends needs_lounge
              lifetime_free_only is_first_year cards) as (results & Hall & Hr).
  exists results, (sort_reverse Analysis.net_value results).
  split; [exact Hall|]. split; [exact Hr|]. split.
  - apply sort_reverse_perm.
  - rewrite <- (Permutation_length (sort_reverse_perm Analysis.net_value results)).
    rewrite <- (Forall2_length Hall). apply filter_length_le.
Qed.

(** ** Filters *)

Lemma Forall2_right_In {X Y : Type} (R : X -> Y -> Prop) (l : list X)
    (l' : list Y) :
  Forall2 R l l' -> Forall (fun y => exists x, In x l /\ R x y) l'.
Proof.
  induction 1 as [|x y l l' Hxy _ IH]; constructor.
  - exists x. split; [left; reflexivity|exact Hxy].
  - apply (Forall_impl _ (P := fun y => exists x, In x l /\ R x y)); [|exact IH].
    intros y' (x' & Hin & HR). exists x'. split; [right; exact Hin|exact HR].
Qed.

Lemma kept_card_filters (monthly_salary : Z)
    (needs_lounge lifetime_free_only : bool) (card : Card.t) :
  filter_fields_valid card ->
  kept monthly_salary needs_lounge lifetime_free_only card = true ->
  (lifetime_free_only = true -> card.(Card.annual_fee) = 0)
  /\ (needs_lounge = true -> 0 < card.(Card.lounge_visits_per_quarter))
  /\ check_eligibility card monthly_salary = true.
Proof.
  intros [Hfee Hvis]. unfold kept, passes_filters.
  rewrite !andb_true_iff, !negb_true_iff, !andb_false_iff.
  rewrite Z.ltb_ge, Z.eqb_neq.
  intros [[H1 H2] He]. repeat split; try exact He; intros ->.
  - destruct H1 as [H1|H1]; [discriminate|lia].
  - destruct H2 as [H2|H2]; [discriminate|lia].
Qed.

(** C4: every entry of the ranking is the eligible valuation of an input
    card; with the lifetime-free filter set that card has annual fee 0 (and
    so has the entry's breakdown), with the lounge filter set it has a
    positive number of lounge visits per quarter. *)
Theorem ranking_respects_filters (cards : list Card.t) (monthly_salary : Z)
    (monthly_spends : dict Z)
    (needs_lounge lifetime_free_only is_first_year : bool) :
  Forall filter_fields_valid cards ->
  exists ranked,
    rank_cards cards monthly_salary monthly_spends needs_lounge
      lifetime_free_only is_first_year = Ok ranked
    /\ Forall
         (fun r =>
            r.(Analysis.is_eligible) = true
            /\ exists card b,
                 In card cards
                 /\ valuation_of monthly_salary monthly_spends needs_lounge
                      is_first_year card r
                 /\ r.(Analysis.breakdown) = Some b
                 /\ (lifetime_free_only = true ->
                     card.(Card.annual_fee) = 0 /\ b.(Breakdown.annual_fee) = 0)
                 /\ (needs_lounge = true ->
                     0 < card.(Card.lounge_visits_per_quarter)))
         ranked.
Proof.
  intros Hvalid.
  destruct (rank_cards_spec monthly_salary monthly_spends needs_lounge
              lifetime_free_only is_first_year cards) as (results & Hall & Hr).
  exists (sort_reverse Analysis.net_value results). split; [exact Hr|].
  apply (Permutation_Forall (sort_reverse_perm Analysis.net_value results)).
  apply Forall2_right_In in Hall.
  apply (Forall_impl _ (P := fun r => exists card,
           In card (filter (kept monthly_salary needs_lounge lifetime_free_only) cards)
           /\ valuation_of monthly_salary monthly_spends needs_lounge
                is_first_year card r)); [|exact Hall].
  intros r (card & Hin & Hval). apply filter_In in Hin. destruct Hin as [Hin Hk].
  rewrite Forall_forall in Hvalid.
  destruct (kept_card_filters _ _ _ _ (Hvalid card Hin) Hk) as (Hf & Hl & He).
  destruct (calculate_net_value_eligible card monthly_salary monthly_spends
              needs_lounge is_first_year He) as (r' & b & Hr' & Hb).
  unfold valuation_of in Hval. rewrite Hr' in Hval. injection Hval as <-.
  split; [apply Hb|]. exists card, b.
  split; [exact Hin|]. split; [exact Hr'|]. split; [apply Hb|].
  split; [|exact Hl].
  intros Hlf. destruct Hb as (_ & _ & _ & Hfee & _).
  rewrite Hfee. split; apply Hf, Hlf.
Qed.

Lemma ranking_respects_filters_witness :
  Forall filter_fields_valid CREDIT_CARDS
  /\ exists ranked,
       rank_cards CREDIT_CARDS 30000 (five_spends 15000 5000 5000 10000 5000)
         true true false = Ok ranked
       /\ map Analysis.card_name ranked = ["IndusInd Tiger"]
       /\ Forall
            (fun r =>
               r.(Analysis.is_eligible) = true
               /\ exists card b,
                    In card CREDIT_CARDS
                    /\ valuation_of 30000 (five_spends 15000 5000 5000 10000 5000)
                         true false card r
                    /\ r.(Analysis.breakdown) = Some b
                    /\ (true = true ->
                        card.(Card.annual_fee) = 0 /\ b.(Breakdown.annual_fee) = 0)
                    /\ (true = true -> 0 < card.(Card.lounge_visits_per_quarter)))
            ranked.
Proof.
  assert (H : Forall filter_fields_valid CREDIT_CARDS).
  { repeat constructor; vm_compute; discriminate. }
  split; [exact H|].
  destruct (ranking_respects_filters CREDIT_CARDS 30000
              (five_spends 15000 5000 5000 10000 5000) true true false H)
    as (ranked & Hr & Hall).
  exists ranked. split; [exact Hr|]. split; [|exact Hall].
  vm_compute in Hr. injection Hr as <-. reflexivity.
Defined.

(** ** Dictionaries with unique keys *)

Lemma dict_get_find {V : Type} (d : dict V) (k : string) (default : V) :
  dict_get d k default
  = match dict_find d k with Some v => v | None => default end.
Proof.
  induction d as [|[k' v] d IH]; cbn; [reflexivity|].
  destruct (String.eqb k' k); [reflexivity|exact IH].
Qed.

Lemma dict_find_absent {V : Type} (d : dict V) (k : string) :
  ~ In k (keys d) -> dict_find d k = None.
Proof.
  induction d as [|[k' v] d IH]; cbn; [reflexivity|].
  intros H. destruct (String.eqb_spec k' k) as [->|_].
  - exfalso. apply H. left. reflexivity.
  - apply IH. intros Hin. apply H. right. exact Hin.
Qed.

Lemma dict_set_absent {V : Type} (d : dict V) (k : string) (v : V) :
  ~ In k (keys d) -> dict_set d k v = d ++ [(k, v)].
Proof.
  induction d as [|[k' v'] d IH]; cbn; [reflexivity|].
  intros H. destruct (String.eqb_spec k' k) as [->|_].
  - exfalso. apply H. left. reflexivity.
  - rewrite IH; [reflexivity|]. intros Hin. apply H. right. exact Hin.
Qed.

Lemma dict_find_map {V W : Type} (g : string -> V -> W) (d : dict V)
    (k : string) :
  dict_find (map (fun it => (fst it, g (fst it) (snd it))) d) k
  = option_map (g k) (dict_find d k).
Proof.
  induction d as [|[k' v] d IH]; cbn; [reflexivity|].
  destruct (String.eqb_spec k' k) as [->|_]; [reflexivity|exact IH].
Qed.

Lemma dict_find_present {V : Type} (d : dict V) (k : string) :
  In k (keys d) -> exists v, dict_find d k = Some v.
Proof.
  induction d as [|[k' v] d IH]; cbn; [contradiction|].
  intros H. destruct (String.eqb_spec k' k) as [->|Hne].
  - exists v. reflexivity.
  - apply IH. destruct H as [H|H]; [contradiction|exact H].
Qed.

(** With unique keys the values are the lookups of the keys, in order. *)
Lemma values_by_key {V : Type} (d : dict V) (default : V) :
  NoDup (keys d) ->
  values d = map (fun k => dict_get d k default) (keys d).
Proof.
  unfold values, keys.
  induction d as [|[k v] d IH]; cbn; [reflexivity|].
  intros Hnd. inversion Hnd as [|? ? Hk Hd]; subst.
  rewrite String.eqb_refl. f_equal.
  rewrite (IH Hd). apply map_ext_in. intros k' Hin.
  destruct (String.eqb_spec k k') as [->|_]; [contradiction|reflexivity].
Qed.

(** ** Sums of rationals *)

Lemma fold_left_Qplus (l : list Q) (a : Q) :
  (fold_left Qplus l a == a + Qsum l)%Q.
Proof.
  revert a. unfold Qsum.
  induction l as [|x l IH]; intros a; cbn [fold_left fold_right].
  - ring.
  - rewrite IH. ring.
Qed.

Lemma Qsum_perm (l l' : list Q) : Permutation l l' -> (Qsum l == Qsum l')%Q.
Proof.
  unfold Qsum.
  induction 1 as [|x l l' _ IH|x y l|l l' l'' _ IH1 _ IH2]; cbn [fold_right].
  - reflexivity.
  - rewrite IH. reflexivity.
  - ring.
  - rewrite IH1. exact IH2.
Qed.

Lemma Qsum_values_by_key (d : dict Q) (ks : list string) :
  Permutation (keys d) ks ->
  NoDup ks ->
  (Qsum (values d) == Qsum (map (fun k => dict_get d k 0%Q) ks))%Q.
Proof.
  intros Hp Hnd.
  assert (Hd : NoDup (keys d))
    by apply (Permutation_NoDup (Permutation_sym Hp) Hnd).
  rewrite (values_by_key d 0%Q Hd).
  apply Qsum_perm, Permutation_map, Hp.
Qed.

(** ** Category rewards *)

Lemma base_rewards_fold (card : Card.t) (annual_spends : dict Z) :
  forall (total : Q) (rewards : dict Q),
  NoDup (keys annual_spends) ->
  (forall k, In k (keys annual_spends) -> ~ In k (keys rewards)) ->
  fold_left
    (fun '(total_rewards, category_rewards) '(user_category, amount) =>
       let reward_value := (inject_Z amount * reward_rate card user_category)%Q in
       ((total_rewards + reward_value)%Q,
        dict_set category_rewards user_category reward_value))
    annual_spends (total, rewards)
  = (fold_left Qplus
       (map (fun it => reward_of card (fst it) (snd it)) annual_spends) total,
     rewards
     ++ map (fun it => (fst it, reward_of card (fst it) (snd it))) annual_spends).
Proof.
  induction annual_spends as [|[k a] d IH]; intros total rewards Hnd Hfresh.
  - cbn. rewrite app_nil_r. reflexivity.
  - cbn [fold_left map fst snd]. cbv zeta.
    inversion Hnd as [|? ? Hk Hd]; subst.
    rewrite dict_set_absent by (apply Hfresh; left; reflexivity).
    rewrite IH.
    + rewrite <- app_assoc. reflexivity.
    + exact Hd.
    + intros k' Hin. unfold keys. rewrite map_app, in_app_iff. cbn.
      intros [H|[H|[]]].
      * apply (Hfresh k'); [right; exact Hin|exact H].
      * subst k'. contradiction.
Qed.

Lemma calculate_base_rewards_unique_keys (card : Card.t) (annual_spends : dict Z) :
  NoDup (keys annual_spends) ->
  calculate_base_rewards card annual_spends
  = (fold_left Qplus
       (map (fun it => reward_of card (fst it) (snd it)) annual_spends) 0%Q,
     map (fun it => (fst it, reward_of card (fst it) (snd it))) annual_spends).
Proof.
  intros Hnd. unfold calculate_base_rewards.
  rewrite base_rewards_fold; [reflexivity|exact Hnd|].
  intros k _ [].
Qed.

Lemma calculate_annual_spend_keys (monthly_spends : dict Z) :
  keys (calculate_annual_spend monthly_spends) = keys monthly_spends.
Proof.
  unfold keys, calculate_annual_spend. rewrite map_map.
  apply map_ext. intros [k a]. reflexivity.
Qed.

Lemma calculate_annual_spend_find (monthly_spends : dict Z) (k : string) :
  dict_find (calculate_annual_spend monthly_spends) k
  = option_map (fun amount => amount * 12) (dict_find monthly_spends k).
Proof.
  unfold calculate_annual_spend.
  rewrite <- (dict_find_map (fun _ amount => amount * 12)).
  f_equal. apply map_ext. intros [k' a]. reflexivity.
Qed.

Lemma category_mapping_keys_NoDup : NoDup (keys category_mapping).
Proof.
  repeat (constructor; [cbn; intuition discriminate|]). constructor.
Qed.

(** C5: over a spend mapping on the five categories, each annual spend is
    12 times the monthly one, each category's reward is its annual spend
    times the base rate ("general", or no multiplier for the category) or
    times the category's multiplier, and the total is the sum of the five
    rewards. *)
Theorem category_rewards_spec (card : Card.t) (monthly_spends : dict Z) :
  Permutation (keys monthly_spends) (keys category_mapping) ->
  let annual_spends := calculate_annual_spend monthly_spends in
  let total_rewards := fst (calculate_base_rewards card annual_spends) in
  let category_rewards := snd (calculate_base_rewards card annual_spends) in
  (forall category, In category (keys category_mapping) ->
   exists amount,
     dict_find monthly_spends category = Some amount
     /\ dict_find annual_spends category = Some (amount * 12)
     /\ dict_find category_rewards category
        = Some (inject_Z (amount * 12) * category_rate card category)%Q)
  /\ (total_rewards
      == Qsum (map (fun category => dict_get category_rewards category 0%Q)
                 (keys category_mapping)))%Q.
Proof.
  intros Hp annual_spends total_rewards category_rewards.
  assert (Hnd : NoDup (keys annual_spends)).
  { unfold annual_spends. rewrite calculate_annual_spend_keys.
    apply (Permutation_NoDup (Permutation_sym Hp) category_mapping_keys_NoDup). }
  subst total_rewards category_rewards.
  rewrite (calculate_base_rewards_unique_keys card annual_spends Hnd).
  cbn [fst snd]. split.
  - intros category Hin.
    apply (Permutation_in _ (Permutation_sym Hp)) in Hin.
    destruct (dict_find_present _ _ Hin) as (amount & Ha).
    exists amount. split; [exact Ha|].
    assert (Han : dict_find annual_spends category = Some (amount * 12)).
    { unfold annual_spends. rewrite calculate_annual_spend_find, Ha. reflexivity. }
    split; [exact Han|].
    rewrite (dict_find_map (reward_of card)), Han. cbn [option_map].
    unfold reward_of, reward_rate, category_rate.
    rewrite dict_get_find. reflexivity.
  - rewrite fold_left_Qplus, Qplus_0_l.
    rewrite <- Qsum_values_by_key.
    + unfold values. rewrite map_map. cbn [snd]. reflexivity.
    + unfold keys at 1. rewrite map_map.
      change (Permutation (keys (calculate_annual_spend monthly_spends))
                (keys category_mapping)).
      rewrite calculate_annual_spend_keys. exact Hp.
    + exact category_mapping_keys_NoDup.
Qed.

Lemma category_rewards_spec_witness :
  Permutation (keys (five_spends 15000 5000 5000 10000 5000))
    (keys category_mapping)
  /\ exists amount,
       dict_find (five_spends 15000 5000 5000 10000 5000) "online" = Some amount
       /\ dict_find
            (snd (calculate_base_rewards SBI_SimplyCLICK
                    (calculate_annual_spend
                       (five_spends 15000 5000 5000 10000 5000))))
            "online"
          = Some (inject_Z (amount * 12) * category_rate SBI_SimplyCLICK "online")%Q.
Proof.
  assert (H : Permutation (keys (five_spends 15000 5000 5000 10000 5000))
                (keys category_mapping)) by apply Permutation_refl.
  split; [exact H|].
  destruct (category_rewards_spec SBI_SimplyCLICK
              (five_spends 15000 5000 5000 10000 5000) H) as [Hcat _].
  destruct (Hcat "online") as (amount & Hm & _ & Hr).
  - cbn. auto.
  - exists amount. split; [exact Hm|exact Hr].
Defined.

(** A card without a multiplier for a category earns the base rate on it. *)
Example sparse_multipliers_fall_back :
  let card :=
    {| Card.card_name := "Sparse"; Card.bank := "RBL";
       Card.annual_fee := 0; Card.fee_waiver_threshold := 0;
       Card.min_salary_req := 15000; Card.base_reward_rate := 125 # 10000;
       Card.category_multipliers := [("online", 25 # 1000)];
       Card.lounge_access := "None"; Card.lounge_visits_per_quarter := 0;
       Card.milestone_benefits := []; Card.fuel_surcharge_waiver := true;
       Card.card_type := "Lifetime Free"; Card.joining_fee := 0;
       Card.welcome_benefit := 0; Card.description := EmptyString |} in
  dict_find
    (snd (calculate_base_rewards card
            (calculate_annual_spend (five_spends 15000 5000 5000 10000 5000))))
    "travel"
  = Some (inject_Z 60000 * (125 # 10000))%Q.
Proof. reflexivity. Qed.

(** ** Milestones *)

Lemma milestone_fold (card : Card.t) (annual_spend : Z)
    (milestones : list (Z * Z)) :
  forall (total : Q) (achieved : list string),
  fold_left
    (fun '(total_milestone_value, achieved_milestones) '(threshold, points) =>
       if threshold <=? annual_spend then
         let value := (inject_Z points * point_value card)%Q in
         ((total_milestone_value + value)%Q,
          achieved_milestones ++ [milestone_text threshold points value])
       else (total_milestone_value, achieved_milestones))
    milestones (total, achieved)
  = (fold_left Qplus (map (milestone_worth card) (reached annual_spend milestones))
       total,
     achieved
     ++ map (fun it => milestone_text (fst it) (snd it) (milestone_worth card it))
          (reached annual_spend milestones)).
Proof.
  induction milestones as [|[t p] l IH]; intros total achieved.
  - cbn. rewrite app_nil_r. reflexivity.
  - cbn [fold_left reached filter fst]. fold (reached annual_spend l).
    destruct (t <=? annual_spend).
    + cbv zeta. rewrite IH. cbn [map fold_left]. rewrite <- app_assoc.
      reflexivity.
    + apply IH.
Qed.

(** C6: the milestone value is the sum, over every threshold the spend
    reaches, of points times the bank's point value, and the achievements
    are one description per reached threshold, in catalog order. *)
Theorem milestone_benefits_spec (card : Card.t) (annual_spend : Z) :
  let achieved := reached annual_spend card.(Card.milestone_benefits) in
  (fst (calculate_milestone_benefits card annual_spend)
   == Qsum (map (milestone_worth card) achieved))%Q
  /\ snd (calculate_milestone_benefits card annual_spend)
     = map (fun it => milestone_text (fst it) (snd it) (milestone_worth card it))
         achieved
  /\ List.length (snd (calculate_milestone_benefits card annual_spend))
     = List.length achieved
  /\ forall threshold points,
       In (threshold, points) card.(Card.milestone_benefits) ->
       threshold <= annual_spend ->
       In (threshold, points) achieved.
Proof.
  intros achieved. unfold calculate_milestone_benefits.
  rewrite milestone_fold. fold achieved. cbn [fst snd app].
  split; [|split; [|split]].
  - rewrite fold_left_Qplus. apply Qplus_0_l.
  - reflexivity.
  - apply length_map.
  - intros threshold points Hin Hle. apply filter_In.
    split; [exact Hin|]. apply Z.leb_le. exact Hle.
Qed.

(** Both milestones of Amex Platinum Travel count at a spend of 480,000:
    the higher one does not replace the lower. *)
Example amex_both_milestones :
  (fst (calculate_milestone_benefits Amex_Platinum_Travel 480000)
   == inject_Z 10000 * (50 # 100) + inject_Z 20000 * (50 # 100))%Q
  /\ snd (calculate_milestone_benefits Amex_Platinum_Travel 480000)
     = ["₹190,000 spend → 10,000 points (₹5,000)";
        "₹400,000 spend → 20,000 points (₹10,000)"].
Proof. split; reflexivity. Qed.

(** ** Effective reward rate *)

Lemma fold_left_Zadd_nonneg (l : list Z) :
  forall a, 0 <= a -> Forall (fun x => 0 <= x) l ->
  fold_left Z.add l a = 0 -> a = 0 /\ Forall (fun x => x = 0) l.
Proof.
  induction l as [|x l IH]; intros a Ha Hl Hsum; cbn in Hsum.
  - split; [exact Hsum|constructor].
  - inversion Hl as [|? ? Hx Hl']; subst.
    destruct (IH (a + x) ltac:(lia) Hl' Hsum) as [Hax Hz].
    split; [lia|]. constructor; [lia|exact Hz].
Qed.

(** The total does not depend on how the per-category dictionary is kept. *)
Lemma base_rewards_total (card : Card.t) (annual_spends : dict Z) :
  forall (total : Q) (rewards : dict Q),
  fst (fold_left
         (fun '(total_rewards, category_rewards) '(user_category, amount) =>
            let reward_value :=
              (inject_Z amount * reward_rate card user_category)%Q in
            ((total_rewards + reward_value)%Q,
             dict_set category_rewards user_category reward_value))
         annual_spends (total, rewards))
  = fold_left Qplus
      (map (fun it => reward_of card (fst it) (snd it)) annual_spends) total.
Proof.
  induction annual_spends as [|[k a] d IH]; intros total rewards;
    [reflexivity|].
  cbn [fold_left map fst snd]. cbv zeta. apply IH.
Qed.

Lemma zero_spend_zero_rewards (card : Card.t) (monthly_spends : dict Z) :
  Forall (fun amount => 0 <= amount) (values monthly_spends) ->
  calculate_total_spend (calculate_annual_spend monthly_spends) = 0 ->
  (fst (calculate_base_rewards card (calculate_annual_spend monthly_spends))
   == 0)%Q.
Proof.
  intros Hnn Hsum. unfold calculate_base_rewards. rewrite base_rewards_total.
  rewrite fold_left_Qplus, Qplus_0_l.
  unfold calculate_total_spend in Hsum.
  apply fold_left_Zadd_nonneg in Hsum; [|lia|].
  - destruct Hsum as [_ Hz]. revert Hz.
    generalize (calculate_annual_spend monthly_spends) as d.
    induction d as [|[k a] d IH]; cbn; intros Hz; [reflexivity|].
    inversion Hz as [|? ? Ha Hd]; subst.
    rewrite (IH Hd). unfold reward_of. cbn [fst snd]. ring.
  - unfold values, calculate_annual_spend. rewrite map_map.
    unfold values in Hnn. rewrite Forall_map in Hnn |- *.
    apply (Forall_impl _ (P := fun it : string * Z => 0 <= snd it));
      [|exact Hnn].
    intros [k a]; cbn; lia.
Qed.

Lemma zero_spend_no_milestone (card : Card.t) :
  Forall (fun it => 0 < fst it) card.(Card.milestone_benefits) ->
  calculate_milestone_benefits card 0 = (0%Q, []).
Proof.
  intros Hpos. unfold calculate_milestone_benefits. rewrite milestone_fold.
  assert (E : reached 0 card.(Card.milestone_benefits) = []).
  { unfold reached. induction Hpos as [|it l Hit _ IH]; [reflexivity|].
    cbn [filter]. destruct (Z.leb_spec (fst it) 0); [lia|exact IH]. }
  rewrite E. reflexivity.
Qed.

Lemma reward_rate_category_rate (card : Card.t) (category : string) :
  reward_rate card category = category_rate card category.
Proof.
  unfold reward_rate, category_rate. now rewrite dict_get_find.
Qed.

(** The total rewards, from the monthly amounts of the profile. *)
Lemma total_rewards_of_profile (card : Card.t) (monthly_spends : dict Z) :
  (fst (calculate_base_rewards card (calculate_annual_spend monthly_spends))
   == Qsum (map (fun it =>
                   inject_Z (snd it * 12) * category_rate card (fst it))
              monthly_spends))%Q.
Proof.
  unfold calculate_base_rewards. rewrite base_rewards_total.
  rewrite fold_left_Qplus, Qplus_0_l.
  unfold calculate_annual_spend. rewrite map_map.
  assert (E : map (fun x : string * Z =>
                     reward_of card
                       (fst (let '(category, amount) := x in
                             (category, amount * 12)))
                       (snd (let '(category, amount) := x in
                             (category, amount * 12))))
                monthly_spends
              = map (fun it =>
                       (inject_Z (snd it * 12) * category_rate card (fst it))%Q)
                  monthly_spends).
  { apply map_ext. intros [k a]. cbn [fst snd]. unfold reward_of.
    now rewrite reward_rate_category_rate. }
  rewrite E. reflexivity.
Qed.

(** C8: the valuation never raises.  For an eligible profile, with the
    total annual spend 12 times the sum of the monthly amounts and the
    total rewards the sum of each annual amount times its category's rate,
    the effective reward rate is total rewards over total annual spend
    times 100 when the spend is positive and 0 otherwise; at zero spend
    (spends not negative, milestone thresholds positive) the total rewards
    are 0 and the net value is the welcome value plus the lounge value
    minus the effective fee. *)
Theorem effective_reward_rate_safe (card : Card.t) (monthly_salary : Z)
    (monthly_spends : dict Z) (needs_lounge is_first_year : bool) :
  exists r,
    calculate_net_value card monthly_salary monthly_spends needs_lounge
      is_first_year = Ok r
    /\ (card.(Card.min_salary_req) <= monthly_salary ->
        exists b rate,
          r.(Analysis.breakdown) = Some b
          /\ r.(Analysis.effective_reward_rate) = Some rate
          /\ b.(Breakdown.total_annual_spend) = 12 * Zsum (values monthly_spends)
          /\ (b.(Breakdown.total_rewards)
              == Qsum (map (fun it =>
                              inject_Z (snd it * 12)
                              * category_rate card (fst it))
                         monthly_spends))%Q
          /\ (0 < 12 * Zsum (values monthly_spends) ->
              rate = (b.(Breakdown.total_rewards)
                      / inject_Z (12 * Zsum (values monthly_spends)) * 100)%Q)
          /\ (12 * Zsum (values monthly_spends) <= 0 -> rate = 0%Q)
          /\ (Zsum (values monthly_spends) = 0 ->
              Forall (fun amount => 0 <= amount) (values monthly_spends) ->
              Forall (fun it => 0 < fst it) card.(Card.milestone_benefits) ->
              (b.(Breakdown.total_rewards) == 0)%Q
              /\ (r.(Analysis.net_value)
                  == inject_Z (if is_first_year
                               then card.(Card.welcome_benefit) else 0)
                     + calculate_lounge_value card needs_lounge
                     - inject_Z (calculate_effective_fee card 0))%Q)).
Proof.
  destruct (calculate_net_value_ok card monthly_salary monthly_spends
              needs_lounge is_first_year) as (r & Hr & _).
  exists r. split; [exact Hr|]. intros Hs. apply Z.leb_le in Hs.
  destruct (calculate_net_value_eligible card monthly_salary monthly_spends
              needs_lounge is_first_year Hs) as (r' & b & Hr' & Hb).
  rewrite Hr' in Hr. injection Hr as <-.
  destruct Hb as (_ & Hbd & _ & _ & Ht & Hfee & _ & Hrew & Hmil & Hl & Hw & Hg & Hn & Hrate).
  pose proof (calculate_total_spend_Zsum monthly_spends) as Htot.
  assert (Htr : b.(Breakdown.total_rewards)
                = fst (calculate_base_rewards card
                         (calculate_annual_spend monthly_spends)))
    by (rewrite <- Hrew; reflexivity).
  exists b. eexists. split; [exact Hbd|]. split; [exact Hrate|].
  split; [rewrite Ht; exact Htot|].
  split; [rewrite Htr; apply total_rewards_of_profile|].
  rewrite Htot. split; [|split].
  - intros Hpos. apply Z.ltb_lt in Hpos. rewrite Hpos. reflexivity.
  - intros Hle. destruct (Z.ltb_spec 0 (12 * Zsum (values monthly_spends)));
      [lia|reflexivity].
  - intros Hz Hnn Hpos.
    assert (Hz' : calculate_total_spend (calculate_annual_spend monthly_spends)
                  = 0) by (rewrite Htot, Hz; reflexivity).
    assert (Htr0 : (b.(Breakdown.total_rewards) == 0)%Q).
    { rewrite Htr. apply zero_spend_zero_rewards; assumption. }
    split; [exact Htr0|].
    assert (Hmv : b.(Breakdown.milestone_value) = 0%Q).
    { rewrite Hz', (zero_spend_no_milestone card Hpos) in Hmil. congruence. }
    rewrite Hn, Hg, Htr0, Hmv, Hl, Hw, Hfee, Hz'. ring.
Qed.

Lemma effective_reward_rate_safe_witness :
  (SBI_Cashback_Card.(Card.min_salary_req) <= 75000
   /\ 0 < 12 * Zsum (values (five_spends 15000 5000 5000 10000 5000))
   /\ exists r b rate,
        calculate_net_value SBI_Cashback_Card 75000
          (five_spends 15000 5000 5000 10000 5000) false true = Ok r
        /\ r.(Analysis.breakdown) = Some b
        /\ r.(Analysis.effective_reward_rate) = Some rate
        /\ b.(Breakdown.total_annual_spend) = 480000
        /\ (b.(Breakdown.total_rewards) == 9600 # 1)%Q
        /\ (rate == 2 # 1)%Q)
  /\ (IndusInd_Tiger.(Card.min_salary_req) <= 25000
      /\ Zsum (values (five_spends 0 0 0 0 0)) = 0
      /\ exists r b,
           calculate_net_value IndusInd_Tiger 25000 (five_spends 0 0 0 0 0)
             true true = Ok r
           /\ r.(Analysis.breakdown) = Some b
           /\ r.(Analysis.effective_reward_rate) = Some 0%Q
           /\ (b.(Breakdown.total_rewards) == 0)%Q
           /\ (r.(Analysis.net_value) == 12000 # 1)%Q).
Proof.
  split.
  - assert (Hs : SBI_Cashback_Card.(Card.min_salary_req) <= 75000)
      by (vm_compute; discriminate).
    assert (Hp : 0 < 12 * Zsum (values (five_spends 15000 5000 5000 10000 5000)))
      by reflexivity.
    split; [exact Hs|]. split; [exact Hp|].
    destruct (effective_reward_rate_safe SBI_Cashback_Card 75000
                (five_spends 15000 5000 5000 10000 5000) false true)
      as (r & Hr & Hcase).
    destruct (Hcase Hs) as (b & rate & Hb & Hrate & Ht & Htr & Hpos & _).
    exists r, b, rate. split; [exact Hr|]. split; [exact Hb|].
    split; [exact Hrate|]. split; [exact Ht|].
    split; [rewrite Htr; reflexivity|].
    rewrite (Hpos Hp), Htr. reflexivity.
  - assert (Hs : IndusInd_Tiger.(Card.min_salary_req) <= 25000)
      by (vm_compute; discriminate).
    assert (Hz : Zsum (values (five_spends 0 0 0 0 0)) = 0) by reflexivity.
    split; [exact Hs|]. split; [exact Hz|].
    destruct (effective_reward_rate_safe IndusInd_Tiger 25000
                (five_spends 0 0 0 0 0) true true) as (r & Hr & Hcase).
    destruct (Hcase Hs) as (b & rate & Hb & Hrate & _ & _ & _ & Hle & Hzero).
    assert (Hr0 : rate = 0%Q) by (apply Hle; rewrite Hz; discriminate).
    assert (Hnn : Forall (fun amount => 0 <= amount)
                    (values (five_spends 0 0 0 0 0))).
    { repeat constructor; discriminate. }
    assert (Hpos : Forall (fun it => 0 < fst it)
                     IndusInd_Tiger.(Card.milestone_benefits)).
    { repeat constructor. }
    destruct (Hzero Hz Hnn Hpos) as (Htr & Hnet).
    exists r, b. split; [exact Hr|]. split; [exact Hb|].
    split; [rewrite Hrate, Hr0; reflexivity|]. split; [exact Htr|].
    rewrite Hnet. reflexivity.
Defined.

(** * Further properties of the calculator *)

(** ** Spend totals *)

Lemma fold_left_Zadd_shift (l : list Z) (a : Z) :
  fold_left Z.add l a = a + fold_left Z.add l 0.
Proof.
  revert a. induction l as [|x l IH]; intros a; cbn [fold_left]; [lia|].
  rewrite (IH (a + x)), (IH (0 + x)). lia.
Qed.

(** X1: the annual total is 12 times the monthly total, whatever the
    categories are. *)
Theorem total_annual_spend_is_twelve_months (monthly_spends : dict Z) :
  calculate_total_spend (calculate_annual_spend monthly_spends)
  = calculate_total_spend monthly_spends * 12.
Proof.
  unfold calculate_total_spend, calculate_annual_spend, values.
  induction monthly_spends as [|[k a] d IH]; [reflexivity|].
  cbn [map fold_left snd] in *.
  rewrite (fold_left_Zadd_shift _ (0 + a * 12)),
          (fold_left_Zadd_shift _ (0 + a)), IH. lia.
Qed.

(** ** Effective fee *)

(** X2: the effective fee is 0 or the stated fee, and for a card whose
    stated fee is not negative, spending more never raises it. *)
Theorem effective_fee_antitone (card : Card.t) (spend spend' : Z) :
  0 <= card.(Card.annual_fee) ->
  spend <= spend' ->
  (calculate_effective_fee card spend = 0
   \/ calculate_effective_fee card spend = card.(Card.annual_fee))
  /\ 0 <= calculate_effective_fee card spend' <= calculate_effective_fee card spend
  /\ calculate_effective_fee card spend <= card.(Card.annual_fee).
Proof.
  intros Hfee Hle. unfold calculate_effective_fee.
  destruct (card.(Card.fee_waiver_threshold) =? 0); [lia|].
  destruct (Z.leb_spec card.(Card.fee_waiver_threshold) spend);
    destruct (Z.leb_spec card.(Card.fee_waiver_threshold) spend'); lia.
Qed.

Lemma effective_fee_antitone_witness :
  0 <= HDFC_Infinia.(Card.annual_fee)
  /\ 180000 <= 1200000
  /\ calculate_effective_fee HDFC_Infinia 180000 = 12500
  /\ 0 <= calculate_effective_fee HDFC_Infinia 1200000
       <= calculate_effective_fee HDFC_Infinia 180000.
Proof.
  assert (H1 : 0 <= HDFC_Infinia.(Card.annual_fee)) by (vm_compute; discriminate).
  assert (H2 : 180000 <= 1200000) by lia.
  split; [exact H1|]. split; [exact H2|]. split; [reflexivity|].
  apply (effective_fee_antitone HDFC_Infinia 180000 1200000 H1 H2).
Defined.

(** ** Lounge value *)

(** X3: with lounge access wanted and a visit count that is not negative,
    the lounge value is never negative and is positive exactly when the
    card has visits; without lounge access wanted it is 0. *)
Theorem lounge_value_positive_iff (card : Card.t) (needs_lounge : bool) :
  0 <= card.(Card.lounge_visits_per_quarter) ->
  (0 <= calculate_lounge_value card needs_lounge)%Q
  /\ ((0 < calculate_lounge_value card needs_lounge)%Q
      <-> needs_lounge = true /\ 0 < card.(Card.lounge_visits_per_quarter)).
Proof.
  intros Hv. unfold calculate_lounge_value, LOUNGE_VALUE_PER_VISIT.
  destruct needs_lounge; cbn [negb].
  - destruct (Z.leb_spec 999 card.(Card.lounge_visits_per_quarter)) as [Hu|Hu].
    + split; [discriminate|]. split; [intros _; split; [reflexivity|lia]|reflexivity].
    + rewrite <- (Zle_Qle 0), <- (Zlt_Qlt 0). split; [lia|].
      split; [intros H; split; [reflexivity|lia]|intros [_ H]; lia].
  - split; [apply Qle_refl|]. split.
    + intros H. now apply Qlt_irrefl in H.
    + intros [H _]. discriminate.
Qed.

Lemma lounge_value_positive_iff_witness :
  0 <= SBI_SimplyCLICK.(Card.lounge_visits_per_quarter)
  /\ ~ (0 < calculate_lounge_value SBI_SimplyCLICK true)%Q.
Proof.
  assert (H : 0 <= SBI_SimplyCLICK.(Card.lounge_visits_per_quarter))
    by (vm_compute; discriminate).
  split; [exact H|].
  intros Hpos.
  apply (proj2 (lounge_value_positive_iff SBI_SimplyCLICK true H)) in Hpos.
  destruct Hpos as [_ Hpos]. vm_compute in Hpos. discriminate.
Defined.

(** X4: the value of unlimited access (999 visits a quarter or more) is
    that of 12 visits a year, so a card with 4 to 998 visits a quarter is
    valued above every card with unlimited access. *)
Theorem unlimited_lounge_below_four_visits (limited unlimited : Card.t) :
  4 <= limited.(Card.lounge_visits_per_quarter) < 999 ->
  999 <= unlimited.(Card.lounge_visits_per_quarter) ->
  calculate_lounge_value unlimited true = inject_Z 18000
  /\ (calculate_lounge_value unlimited true
      < calculate_lounge_value limited true)%Q.
Proof.
  intros [Hl1 Hl2] Hu. unfold calculate_lounge_value, LOUNGE_VALUE_PER_VISIT.
  cbn [negb].
  destruct (Z.leb_spec 999 unlimited.(Card.lounge_visits_per_quarter)); [|lia].
  destruct (Z.leb_spec 999 limited.(Card.lounge_visits_per_quarter)); [lia|].
  split; [reflexivity|]. rewrite <- Zlt_Qlt. lia.
Qed.

Lemma unlimited_lounge_below_four_visits_witness :
  4 <= Amex_Platinum_Travel.(Card.lounge_visits_per_quarter) < 999
  /\ 999 <= HDFC_Infinia.(Card.lounge_visits_per_quarter)
  /\ (calculate_lounge_value HDFC_Infinia true
      < calculate_lounge_value Amex_Platinum_Travel true)%Q.
Proof.
  assert (H1 : 4 <= Amex_Platinum_Travel.(Card.lounge_visits_per_quarter) < 999)
    by (split; [vm_compute; discriminate|reflexivity]).
  assert (H2 : 999 <= HDFC_Infinia.(Card.lounge_visits_per_quarter))
    by (vm_compute; discriminate).
  split; [exact H1|]. split; [exact H2|].
  apply (unlimited_lounge_below_four_visits Amex_Platinum_Travel HDFC_Infinia H1 H2).
Defined.

(** ** Signs and bounds of the rewards *)

Lemma dict_get_Forall {V : Type} (P : V -> Prop) (d : dict V) (k : string)
    (default : V) :
  Forall P (values d) -> P default -> P (dict_get d k default).
Proof.
  unfold values. induction d as [|[k' v] d IH]; cbn; intros Hd Hdef;
    [exact Hdef|].
  inversion Hd; subst. destruct (String.eqb k' k); [assumption|now apply IH].
Qed.

Lemma dict_set_Forall {V : Type} (P : V -> Prop) (d : dict V) (k : string)
    (v : V) :
  Forall P (values d) -> P v -> Forall P (values (dict_set d k v)).
Proof.
  unfold values. induction d as [|[k' v'] d IH]; cbn; intros Hd Hv.
  - constructor; [exact Hv|constructor].
  - inversion Hd; subst. destruct (String.eqb k' k); cbn.
    + constructor; assumption.
    + constructor; [assumption|now apply IH].
Qed.

Lemma reward_rate_nonneg (card : Card.t) (user_category : string) :
  rates_nonneg card -> (0 <= reward_rate card user_category)%Q.
Proof.
  intros [Hb Hm]. unfold reward_rate.
  destruct (String.eqb user_category "general"); [exact Hb|].
  now apply (dict_get_Forall (fun rate => (0 <= rate)%Q)).
Qed.

Lemma reward_rate_at_most_one (card : Card.t) (user_category : string) :
  rates_at_most_one card -> (reward_rate card user_category <= 1)%Q.
Proof.
  intros [Hb Hm]. unfold reward_rate.
  destruct (String.eqb user_category "general"); [exact Hb|].
  now apply (dict_get_Forall (fun rate => (rate <= 1)%Q)).
Qed.

Lemma annual_spends_nonneg (monthly_spends : dict Z) :
  spends_nonneg monthly_spends ->
  spends_nonneg (calculate_annual_spend monthly_spends).
Proof.
  unfold spends_nonneg, values, calculate_annual_spend.
  rewrite map_map, !Forall_map.
  apply Forall_impl. intros [k a]; cbn; lia.
Qed.

Lemma reward_of_nonneg (card : Card.t) (user_category : string) (amount : Z) :
  rates_nonneg card -> 0 <= amount ->
  (0 <= reward_of card user_category amount)%Q.
Proof.
  intros Hr Ha. unfold reward_of. apply Qmult_le_0_compat.
  - rewrite <- (Zle_Qle 0). exact Ha.
  - now apply reward_rate_nonneg.
Qed.

Lemma base_rewards_nonneg_fold (card : Card.t) (annual_spends : dict Z) :
  rates_nonneg card ->
  spends_nonneg annual_spends ->
  forall (total : Q) (rewards : dict Q),
  (0 <= total)%Q ->
  Forall (fun v => (0 <= v)%Q) (values rewards) ->
  let result :=
    fold_left
      (fun '(total_rewards, category_rewards) '(user_category, amount) =>
         let reward_value :=
           (inject_Z amount * reward_rate card user_category)%Q in
         ((total_rewards + reward_value)%Q,
          dict_set category_rewards user_category reward_value))
      annual_spends (total, rewards) in
  (0 <= fst result)%Q /\ Forall (fun v => (0 <= v)%Q) (values (snd result)).
Proof.
  intros Hr. unfold spends_nonneg, values at 1.
  induction annual_spends as [|[k a] d IH]; intros Hs total rewards Ht Hrw.
  - cbn. split; assumption.
  - cbn [map snd] in Hs. inversion Hs as [|? ? Ha Hd]; subst.
    cbn [fold_left]. cbv zeta.
    pose proof (reward_of_nonneg card k a Hr Ha) as Hv. unfold reward_of in Hv.
    apply (IH Hd).
    + rewrite <- (Qplus_0_l 0). now apply Qplus_le_compat.
    + now apply (dict_set_Forall (fun v => (0 <= v)%Q)).
Qed.

Lemma calculate_base_rewards_nonneg (card : Card.t) (monthly_spends : dict Z) :
  rates_nonneg card ->
  spends_nonneg monthly_spends ->
  let result :=
    calculate_base_rewards card (calculate_annual_spend monthly_spends) in
  (0 <= fst result)%Q /\ Forall (fun v => (0 <= v)%Q) (values (snd result)).
Proof.
  intros Hr Hs. unfold calculate_base_rewards.
  apply base_rewards_nonneg_fold.
  - exact Hr.
  - now apply annual_spends_nonneg.
  - apply Qle_refl.
  - constructor.
Qed.

(** X5: with no negative spend and no negative rate, the total rewards
    and every category's reward are not negative. *)
Theorem rewards_nonneg (card : Card.t) (monthly_spends : dict Z) :
  rates_nonneg card ->
  spends_nonneg monthly_spends ->
  let result :=
    calculate_base_rewards card (calculate_annual_spend monthly_spends) in
  (0 <= fst result)%Q /\ Forall (fun v => (0 <= v)%Q) (values (snd result)).
Proof.
  exact (calculate_base_rewards_nonneg card monthly_spends).
Qed.

Lemma catalog_rates_nonneg : Forall rates_nonneg CREDIT_CARDS.
Proof.
  repeat constructor; discriminate.
Qed.

Lemma rewards_nonneg_witness :
  rates_nonneg SBI_Cashback_Card
  /\ spends_nonneg (five_spends 15000 5000 5000 10000 5000)
  /\ (0 <= fst (calculate_base_rewards SBI_Cashback_Card
                  (calculate_annual_spend
                     (five_spends 15000 5000 5000 10000 5000))))%Q.
Proof.
  assert (H1 : rates_nonneg SBI_Cashback_Card)
    by (repeat constructor; discriminate).
  assert (H2 : spends_nonneg (five_spends 15000 5000 5000 10000 5000))
    by (repeat constructor; discriminate).
  split; [exact H1|]. split; [exact H2|].
  apply (rewards_nonneg SBI_Cashback_Card
           (five_spends 15000 5000 5000 10000 5000) H1 H2).
Defined.

(** The rewards never exceed the spend when no rate exceeds 1. *)
Lemma rewards_at_most_spend (card : Card.t) (annual_spends : dict Z) :
  rates_at_most_one card ->
  spends_nonneg annual_spends ->
  forall (total : Q) (spent : Z),
  (total <= inject_Z spent)%Q ->
  (fold_left Qplus
     (map (fun it => reward_of card (fst it) (snd it)) annual_spends) total
   <= inject_Z (fold_left Z.add (values annual_spends) spent))%Q.
Proof.
  intros Hr. unfold spends_nonneg, values.
  induction annual_spends as [|[k a] d IH]; intros Hs total spent Ht.
  - exact Ht.
  - cbn [map snd fst] in *. inversion Hs as [|? ? Ha Hd]; subst.
    cbn [fold_left]. apply (IH Hd).
    rewrite inject_Z_plus. apply Qplus_le_compat; [exact Ht|].
    unfold reward_of.
    rewrite <- (Qmult_1_l (inject_Z a)) at 2.
    rewrite (Qmult_comm (inject_Z a)).
    apply Qmult_le_compat_r.
    + now apply reward_rate_at_most_one.
    + rewrite <- (Zle_Qle 0). exact Ha.
Qed.

(** X6: for an eligible profile with no negative spend, and a card whose
    rates lie between 0 and 1, the effective reward rate lies between 0
    and 100. *)
Theorem effective_reward_rate_bounds (card : Card.t) (monthly_salary : Z)
    (monthly_spends : dict Z) (needs_lounge is_first_year : bool) :
  card.(Card.min_salary_req) <= monthly_salary ->
  rates_nonneg card ->
  rates_at_most_one card ->
  spends_nonneg monthly_spends ->
  exists r rate,
    calculate_net_value card monthly_salary monthly_spends needs_lounge
      is_first_year = Ok r
    /\ r.(Analysis.effective_reward_rate) = Some rate
    /\ (0 <= rate <= 100)%Q.
Proof.
  intros Hs Hr0 Hr1 Hsp. apply Z.leb_le in Hs.
  destruct (calculate_net_value_eligible card monthly_salary monthly_spends
              needs_lounge is_first_year Hs) as (r & b & Hr & Hb).
  destruct Hb as (_ & _ & _ & _ & _ & _ & _ & Hrew & _ & _ & _ & _ & _ & Hrate).
  exists r. eexists. split; [exact Hr|]. split; [exact Hrate|].
  set (annual := calculate_annual_spend monthly_spends) in *.
  destruct (Z.ltb_spec 0 (calculate_total_spend annual)) as [Hpos|_];
    [|split; discriminate].
  assert (Htr : b.(Breakdown.total_rewards) = fst (calculate_base_rewards card annual))
    by (rewrite <- Hrew; reflexivity).
  assert (H0 : (0 <= b.(Breakdown.total_rewards))%Q).
  { rewrite Htr. apply (calculate_base_rewards_nonneg card monthly_spends Hr0 Hsp). }
  assert (H1 : (b.(Breakdown.total_rewards)
                <= inject_Z (calculate_total_spend annual))%Q).
  { rewrite Htr. unfold calculate_base_rewards. rewrite base_rewards_total.
    apply rewards_at_most_spend.
    - exact Hr1.
    - now apply annual_spends_nonneg.
    - apply Qle_refl. }
  assert (HT : (0 < inject_Z (calculate_total_spend annual))%Q)
    by (rewrite <- (Zlt_Qlt 0); exact Hpos).
  split.
  - apply Qmult_le_0_compat; [|discriminate].
    apply Qle_shift_div_l; [exact HT|]. rewrite Qmult_0_l. exact H0.
  - setoid_replace (100 : Q) with (1 * 100)%Q at 2 by reflexivity.
    apply Qmult_le_compat_r; [|discriminate].
    apply Qle_shift_div_r; [exact HT|]. rewrite Qmult_1_l. exact H1.
Qed.

Lemma effective_reward_rate_bounds_witness :
  exists r rate,
    calculate_net_value SBI_Cashback_Card 75000
      (five_spends 15000 5000 5000 10000 5000) false true = Ok r
    /\ r.(Analysis.effective_reward_rate) = Some rate
    /\ (0 <= rate <= 100)%Q.
Proof.
  apply (effective_reward_rate_bounds SBI_Cashback_Card 75000
           (five_spends 15000 5000 5000 10000 5000) false true).
  - vm_compute; discriminate.
  - repeat constructor; discriminate.
  - repeat constructor; discriminate.
  - repeat constructor; discriminate.
Defined.

(** ** Point values and milestones *)

Lemma point_value_quarter_or_half (card : Card.t) :
  point_value card = 25 # 100 \/ point_value card = 50 # 100.
Proof.
  unfold point_value, POINT_VALUATION. cbn [dict_get].
  repeat match goal with
         | |- context [String.eqb ?a ?b] => destruct (String.eqb a b)
         end; auto.
Qed.

(** X7: a point is worth a quarter or half a rupee; a bank missing from
    [POINT_VALUATION] gets the quarter. *)
Theorem point_value_cases (card : Card.t) :
  (point_value card = 25 # 100 \/ point_value card = 50 # 100)
  /\ (dict_find POINT_VALUATION card.(Card.bank) = None ->
      point_value card = 25 # 100).
Proof.
  split; [apply point_value_quarter_or_half|].
  intros H. unfold point_value. rewrite dict_get_find, H. reflexivity.
Qed.

Lemma point_value_cases_witness :
  let card :=
    {| Card.card_name := "Unlisted"; Card.bank := "Kotak";
       Card.annual_fee := 0; Card.fee_waiver_threshold := 0;
       Card.min_salary_req := 0; Card.base_reward_rate := 1 # 100;
       Card.category_multipliers := [];
       Card.lounge_access := "None"; Card.lounge_visits_per_quarter := 0;
       Card.milestone_benefits := [(100000, 1000)];
       Card.fuel_surcharge_waiver := false;
       Card.card_type := "Regular"; Card.joining_fee := 0;
       Card.welcome_benefit := 0; Card.description := "None" |} in
  dict_find POINT_VALUATION card.(Card.bank) = None
  /\ point_value card = 25 # 100.
Proof.
  intros card.
  assert (H : dict_find POINT_VALUATION card.(Card.bank) = None) by reflexivity.
  split; [exact H|]. apply (proj2 (point_value_cases card) H).
Defined.

Lemma point_value_pos (card : Card.t) : (0 < point_value card)%Q.
Proof.
  destruct (point_value_quarter_or_half card) as [E|E]; rewrite E; reflexivity.
Qed.

Lemma milestone_worth_nonneg (card : Card.t) (it : Z * Z) :
  0 <= snd it -> (0 <= milestone_worth card it)%Q.
Proof.
  intros H. unfold milestone_worth. apply Qmult_le_0_compat.
  - rewrite <- (Zle_Qle 0). exact H.
  - apply Qlt_le_weak, point_value_pos.
Qed.

Lemma reached_monotone (card : Card.t) (spend spend' : Z)
    (milestones : list (Z * Z)) :
  spend <= spend' ->
  Forall (fun it => 0 <= snd it) milestones ->
  (Qsum (map (milestone_worth card) (reached spend milestones))
   <= Qsum (map (milestone_worth card) (reached spend' milestones)))%Q
  /\ subseq (reached spend milestones) (reached spend' milestones).
Proof.
  intros Hle. unfold reached, Qsum.
  induction 1 as [|it l Hit _ [IHv IHs]]; cbn [filter].
  - split; [apply Qle_refl|constructor].
  - destruct (Z.leb_spec (fst it) spend); destruct (Z.leb_spec (fst it) spend');
      try lia; cbn [map fold_right].
    + split; [|now constructor].
      apply Qplus_le_compat; [apply Qle_refl|exact IHv].
    + split; [|now constructor].
      rewrite <- (Qplus_0_l (fold_right _ _ (map _ (filter _ l)))) at 1.
      apply Qplus_le_compat; [now apply milestone_worth_nonneg|exact IHv].
    + split; assumption.
Qed.

Lemma subseq_map {A B : Type} (f : A -> B) (l l' : list A) :
  subseq l l' -> subseq (map f l) (map f l').
Proof.
  induction 1; cbn; now constructor.
Qed.

Lemma subseq_length {A : Type} (l l' : list A) :
  subseq l l' -> (List.length l <= List.length l')%nat.
Proof.
  induction 1; cbn; lia.
Qed.

(** X8: with no negative points, spending more never lowers the milestone
    value and never loses an achievement: the achievements of the lower
    spend remain, in order, among those of the higher. *)
Theorem milestones_monotone (card : Card.t) (spend spend' : Z) :
  points_nonneg card ->
  spend <= spend' ->
  (fst (calculate_milestone_benefits card spend)
   <= fst (calculate_milestone_benefits card spend'))%Q
  /\ subseq (snd (calculate_milestone_benefits card spend))
       (snd (calculate_milestone_benefits card spend')).
Proof.
  intros Hp Hle. unfold calculate_milestone_benefits.
  rewrite !milestone_fold. cbn [fst snd app].
  destruct (reached_monotone card spend spend' _ Hle Hp) as [Hq Hs].
  split.
  - rewrite !fold_left_Qplus, !Qplus_0_l. exact Hq.
  - now apply subseq_map.
Qed.

Lemma milestones_monotone_witness :
  points_nonneg Amex_Platinum_Travel
  /\ 200000 <= 480000
  /\ (fst (calculate_milestone_benefits Amex_Platinum_Travel 200000)
      <= fst (calculate_milestone_benefits Amex_Platinum_Travel 480000))%Q
  /\ subseq (snd (calculate_milestone_benefits Amex_Platinum_Travel 200000))
       (snd (calculate_milestone_benefits Amex_Platinum_Travel 480000)).
Proof.
  assert (H1 : points_nonneg Amex_Platinum_Travel)
    by (repeat constructor; discriminate).
  assert (H2 : 200000 <= 480000) by lia.
  split; [exact H1|]. split; [exact H2|].
  apply (milestones_monotone Amex_Platinum_Travel 200000 480000 H1 H2).
Defined.

(** ** Net value *)

Lemma calculate_lounge_value_nonneg (card : Card.t) (needs_lounge : bool) :
  0 <= card.(Card.lounge_visits_per_quarter) ->
  (0 <= calculate_lounge_value card needs_lounge)%Q.
Proof.
  intros Hv. unfold calculate_lounge_value, LOUNGE_VALUE_PER_VISIT.
  destruct needs_lounge; cbn [negb]; [|apply Qle_refl].
  destruct (999 <=? card.(Card.lounge_visits_per_quarter)); [discriminate|].
  rewrite <- (Zle_Qle 0). lia.
Qed.

Lemma calculate_effective_fee_le (card : Card.t) (annual_spend : Z) :
  0 <= card.(Card.annual_fee) ->
  0 <= calculate_effective_fee card annual_spend <= card.(Card.annual_fee).
Proof.
  intros Hfee. unfold calculate_effective_fee.
  destruct (card.(Card.fee_waiver_threshold) =? 0); [lia|].
  destruct (card.(Card.fee_waiver_threshold) <=? annual_spend); lia.
Qed.

Lemma Qplus_nonneg (a b : Q) : (0 <= a -> 0 <= b -> 0 <= a + b)%Q.
Proof.
  intros Ha Hb. apply (Qle_trans _ (0 + 0)); [discriminate|].
  now apply Qplus_le_compat.
Qed.

Lemma Qsum_nonneg (l : list Q) :
  Forall (fun q => (0 <= q)%Q) l -> (0 <= Qsum l)%Q.
Proof.
  unfold Qsum. induction 1 as [|q l Hq _ IH]; cbn [fold_right];
    [apply Qle_refl|].
  now apply Qplus_nonneg.
Qed.

Lemma calculate_milestone_benefits_nonneg (card : Card.t) (annual_spend : Z) :
  points_nonneg card ->
  (0 <= fst (calculate_milestone_benefits card annual_spend))%Q.
Proof.
  intros Hp. unfold calculate_milestone_benefits. rewrite milestone_fold.
  cbn [fst]. rewrite fold_left_Qplus, Qplus_0_l.
  apply Qsum_nonneg. rewrite Forall_map. unfold reached, points_nonneg in *.
  rewrite Forall_forall in *. intros it Hin. apply filter_In in Hin.
  apply milestone_worth_nonneg, Hp, Hin.
Qed.

(** X9: for an eligible profile, with no negative spend, rate, points,
    visit count, welcome benefit or stated fee, a card is never worth less
    than minus its stated annual fee. *)
Theorem net_value_at_least_minus_fee (card : Card.t) (monthly_salary : Z)
    (monthly_spends : dict Z) (needs_lounge is_first_year : bool) :
  card.(Card.min_salary_req) <= monthly_salary ->
  rates_nonneg card ->
  points_nonneg card ->
  spends_nonneg monthly_spends ->
  0 <= card.(Card.lounge_visits_per_quarter) ->
  0 <= card.(Card.welcome_benefit) ->
  0 <= card.(Card.annual_fee) ->
  exists r,
    calculate_net_value card monthly_salary monthly_spends needs_lounge
      is_first_year = Ok r
    /\ (- inject_Z card.(Card.annual_fee) <= r.(Analysis.net_value))%Q.
Proof.
  intros Hs Hr Hp Hsp Hv Hw Hf. apply Z.leb_le in Hs.
  destruct (calculate_net_value_eligible card monthly_salary monthly_spends
              needs_lounge is_first_year Hs) as (r & b & Hres & Hb).
  destruct Hb as (_ & _ & _ & _ & _ & Hfee & _ & Hrew & Hmil & Hl & Hwv & Hg & Hn & _).
  exists r. split; [exact Hres|]. rewrite Hn, Hg.
  assert (H1 : (0 <= b.(Breakdown.total_rewards))%Q).
  { replace b.(Breakdown.total_rewards)
      with (fst (calculate_base_rewards card
                   (calculate_annual_spend monthly_spends)))
      by (rewrite <- Hrew; reflexivity).
    apply (calculate_base_rewards_nonneg card monthly_spends Hr Hsp). }
  assert (H2 : (0 <= b.(Breakdown.milestone_value))%Q).
  { replace b.(Breakdown.milestone_value)
      with (fst (calculate_milestone_benefits card
                   (calculate_total_spend
                      (calculate_annual_spend monthly_spends))))
      by (rewrite <- Hmil; reflexivity).
    now apply calculate_milestone_benefits_nonneg. }
  assert (H3 : (0 <= b.(Breakdown.lounge_value))%Q)
    by (rewrite Hl; now apply calculate_lounge_value_nonneg).
  assert (H4 : (0 <= inject_Z b.(Breakdown.welcome_value))%Q).
  { rewrite <- (Zle_Qle 0), Hwv. destruct is_first_year; lia. }
  assert (H5 : (inject_Z b.(Breakdown.effective_fee)
                <= inject_Z card.(Card.annual_fee))%Q).
  { rewrite <- Zle_Qle, Hfee. now apply calculate_effective_fee_le. }
  assert (H6 : (0 <= b.(Breakdown.total_rewards) + b.(Breakdown.milestone_value)
                     + b.(Breakdown.lounge_value)
                     + inject_Z b.(Breakdown.welcome_value))%Q).
  { repeat apply Qplus_nonneg; assumption. }
  unfold Qminus.
  apply (Qle_trans _ (0 + - inject_Z (Card.annual_fee card)));
    [rewrite Qplus_0_l; apply Qle_refl|].
  apply Qplus_le_compat; [exact H6|]. now apply Qopp_le_compat.
Qed.

Lemma net_value_at_least_minus_fee_witness :
  exists r,
    calculate_net_value HDFC_Infinia 500000 (five_spends 0 0 0 0 0) false false
    = Ok r
    /\ (- inject_Z HDFC_Infinia.(Card.annual_fee) <= r.(Analysis.net_value))%Q
    /\ (r.(Analysis.net_value) == - inject_Z 12500)%Q.
Proof.
  destruct (net_value_at_least_minus_fee HDFC_Infinia 500000
              (five_spends 0 0 0 0 0) false false) as (r & Hr & Hn).
  - vm_compute; discriminate.
  - repeat constructor; discriminate.
  - repeat constructor; discriminate.
  - repeat constructor; discriminate.
  - vm_compute; discriminate.
  - vm_compute; discriminate.
  - vm_compute; discriminate.
  - exists r. split; [exact Hr|]. split; [exact Hn|].
    vm_compute in Hr. injection Hr as <-. reflexivity.
Defined.

(** * Further properties of the ranking *)

Lemma calculate_net_value_valuation (card : Card.t) (monthly_salary : Z)
    (monthly_spends : dict Z) (needs_lounge is_first_year : bool) :
  calculate_net_value card monthly_salary monthly_spends needs_lounge
    is_first_year
  = Ok (valuation monthly_salary monthly_spends needs_lounge is_first_year card).
Proof.
  unfold valuation.
  destruct (calculate_net_value_ok card monthly_salary monthly_spends
              needs_lounge is_first_year) as (r & Hr & _).
  rewrite Hr. reflexivity.
Qed.

Lemma valuation_of_valuation (monthly_salary : Z) (monthly_spends : dict Z)
    (needs_lounge is_first_year : bool) (card : Card.t) (r : Analysis.t) :
  valuation_of monthly_salary monthly_spends needs_lounge is_first_year card r
  <-> r = valuation monthly_salary monthly_spends needs_lounge is_first_year card.
Proof.
  unfold valuation_of. rewrite calculate_net_value_valuation.
  split; [intros H; injection H as <-; reflexivity|intros ->; reflexivity].
Qed.

Lemma Forall2_valuation (monthly_salary : Z) (monthly_spends : dict Z)
    (needs_lounge is_first_year : bool) (cards : list Card.t)
    (results : list Analysis.t) :
  Forall2 (valuation_of monthly_salary monthly_spends needs_lounge is_first_year)
    cards results
  <-> results
      = map (valuation monthly_salary monthly_spends needs_lounge is_first_year)
          cards.
Proof.
  split.
  - induction 1 as [|c r l rs Hc _ IH]; [reflexivity|].
    apply valuation_of_valuation in Hc. cbn. now rewrite Hc, IH.
  - intros ->. induction cards; cbn; constructor; [|assumption].
    now apply valuation_of_valuation.
Qed.

(** The ranking in closed form. *)
Lemma rank_cards_eq (cards : list Card.t) (monthly_salary : Z)
    (monthly_spends : dict Z)
    (needs_lounge lifetime_free_only is_first_year : bool) :
  rank_cards cards monthly_salary monthly_spends needs_lounge
    lifetime_free_only is_first_year
  = Ok (sort_reverse Analysis.net_value
          (map (valuation monthly_salary monthly_spends needs_lounge is_first_year)
             (filter (kept monthly_salary needs_lounge lifetime_free_only) cards))).
Proof.
  destruct (rank_cards_spec monthly_salary monthly_spends needs_lounge
              lifetime_free_only is_first_year cards) as (results & Hall & Hr).
  apply Forall2_valuation in Hall. now rewrite Hr, Hall.
Qed.

(** Above the minimum salary the salary plays no part in the valuation. *)
Lemma valuation_salary (monthly_salary monthly_salary' : Z)
    (monthly_spends : dict Z) (needs_lounge is_first_year : bool)
    (card : Card.t) :
  check_eligibility card monthly_salary = true ->
  check_eligibility card monthly_salary' = true ->
  valuation monthly_salary monthly_spends needs_lounge is_first_year card
  = valuation monthly_salary' monthly_spends needs_lounge is_first_year card.
Proof.
  intros H H'. unfold valuation, calculate_net_value. now rewrite H, H'.
Qed.

(** ** Sub-sequences and the sort *)

Lemma subseq_refl {A : Type} (l : list A) : subseq l l.
Proof.
  induction l; [apply subseq_nil|now apply subseq_take].
Qed.

Lemma subseq_In {A : Type} (l l' : list A) (x : A) :
  subseq l l' -> In x l -> In x l'.
Proof.
  induction 1 as [|y l l' _ IH|y l l' _ IH]; cbn; [tauto| |]; intuition.
Qed.

Lemma subseq_Forall {A : Type} (P : A -> Prop) (l l' : list A) :
  subseq l l' -> Forall P l' -> Forall P l.
Proof.
  intros Hs Hl'. rewrite Forall_forall in *.
  intros x Hx. apply Hl'. now apply (subseq_In l).
Qed.

Lemma insert_desc_head {A : Type} (key : A -> Q) (x : A) (l : list A) :
  Forall (desc key x) l -> insert_desc key x l = x :: l.
Proof.
  destruct l as [|y l]; [reflexivity|].
  intros H. inversion H as [|? ? Hy _]; subst. cbn.
  destruct (Qlt_le_dec (key x) (key y)) as [Hlt|_]; [|reflexivity].
  unfold desc in Hy. exfalso. apply (Qlt_irrefl (key x)).
  now apply Qlt_le_trans with (key y).
Qed.

Lemma insert_desc_subseq {A : Type} (key : A -> Q) (x : A) (l l' : list A) :
  subseq l l' ->
  StronglySorted (desc key) l' ->
  subseq (insert_desc key x l) (insert_desc key x l').
Proof.
  induction 1 as [|y l l' Hs IH|y l l' Hs IH]; intros Hsorted.
  - apply subseq_refl.
  - inversion Hsorted as [|? ? Hl' Hy]; subst. cbn [insert_desc].
    destruct (Qlt_le_dec (key x) (key y)) as [Hlt|Hle].
    + apply subseq_skip. now apply IH.
    + rewrite insert_desc_head.
      * apply subseq_take, subseq_skip, Hs.
      * apply (subseq_Forall _ l l' Hs).
        apply (Forall_impl _ (P := desc key y)); [|exact Hy].
        intros z Hz. unfold desc in *. now apply Qle_trans with (key y).
  - inversion Hsorted as [|? ? Hl' Hy]; subst. cbn [insert_desc].
    destruct (Qlt_le_dec (key x) (key y)).
    + apply subseq_take. now apply IH.
    + apply subseq_take, subseq_take, Hs.
Qed.

Lemma subseq_insert_desc {A : Type} (key : A -> Q) (x : A) (l l' : list A) :
  subseq l l' -> subseq l (insert_desc key x l').
Proof.
  induction 1 as [|y l l' Hs IH|y l l' Hs IH]; cbn [insert_desc].
  - apply subseq_skip, subseq_nil.
  - destruct (Qlt_le_dec (key x) (key y)).
    + apply subseq_skip, IH.
    + apply subseq_skip, subseq_skip, Hs.
  - destruct (Qlt_le_dec (key x) (key y)).
    + apply subseq_take, IH.
    + apply subseq_skip, subseq_take, Hs.
Qed.

(** Sorting keeps sub-sequences: what is left out before the sort is what
    is left out after it. *)
Lemma sort_reverse_subseq {A : Type} (key : A -> Q) (l l' : list A) :
  subseq l l' -> subseq (sort_reverse key l) (sort_reverse key l').
Proof.
  induction 1 as [|x l l' Hs IH|x l l' Hs IH]; cbn [sort_reverse].
  - apply subseq_nil.
  - apply subseq_insert_desc, IH.
  - apply insert_desc_subseq; [exact IH|apply sort_reverse_sorted].
Qed.

(** ** What the ranking shows *)

(** X10: the first entry of a ranking (the card the application presents
    as the winner) is worth at least as much as the valuation of every
    input card that passes the filters and is eligible. *)
Theorem top_of_ranking_is_best (cards : list Card.t) (monthly_salary : Z)
    (monthly_spends : dict Z)
    (needs_lounge lifetime_free_only is_first_year : bool)
    (winner : Analysis.t) (others : list Analysis.t) :
  rank_cards cards monthly_salary monthly_spends needs_lounge
    lifetime_free_only is_first_year = Ok (winner :: others) ->
  forall card r,
    In card cards ->
    kept monthly_salary needs_lounge lifetime_free_only card = true ->
    valuation_of monthly_salary monthly_spends needs_lounge is_first_year card r ->
    (r.(Analysis.net_value) <= winner.(Analysis.net_value))%Q.
Proof.
  rewrite rank_cards_eq. intros Hrank card r Hin Hkept Hval.
  injection Hrank as Hrank.
  apply valuation_of_valuation in Hval. subst r.
  set (results := map _ _) in Hrank.
  assert (Hr : In (valuation monthly_salary monthly_spends needs_lounge
                     is_first_year card) results).
  { apply in_map, filter_In. split; assumption. }
  apply (Permutation_in _ (sort_reverse_perm Analysis.net_value results)) in Hr.
  pose proof (sort_reverse_sorted Analysis.net_value results) as Hsorted.
  rewrite Hrank in Hr, Hsorted.
  destruct Hr as [<-|Hr]; [apply Qle_refl|].
  inversion Hsorted as [|? ? _ Hall]; subst.
  rewrite Forall_forall in Hall. exact (Hall _ Hr).
Qed.

Lemma top_of_ranking_is_best_witness :
  exists winner others,
    rank_cards CREDIT_CARDS 75000 (five_spends 15000 5000 5000 10000 5000)
      false false true = Ok (winner :: others)
    /\ winner.(Analysis.card_name) = "Amex Platinum Travel"
    /\ forall r,
         valuation_of 75000 (five_spends 15000 5000 5000 10000 5000) false true
           Axis_Flipkart r ->
         (r.(Analysis.net_value) <= winner.(Analysis.net_value))%Q.
Proof.
  destruct (rank_cards CREDIT_CARDS 75000
              (five_spends 15000 5000 5000 10000 5000) false false true)
    as [[|winner others]|e] eqn:E; try (vm_compute in E; discriminate).
  exists winner, others. split; [reflexivity|]. split.
  - vm_compute in E. injection E as <- _. reflexivity.
  - intros r Hr.
    apply (top_of_ranking_is_best CREDIT_CARDS 75000
             (five_spends 15000 5000 5000 10000 5000) false false true
             winner others E Axis_Flipkart r).
    + cbn. tauto.
    + reflexivity.
    + exact Hr.
Defined.

Lemma sort_reverse_nil_iff {A : Type} (key : A -> Q) (l : list A) :
  sort_reverse key l = [] <-> l = [].
Proof.
  split; [|intros ->; reflexivity].
  intros H. pose proof (sort_reverse_perm key l) as Hp. rewrite H in Hp.
  now apply Permutation_nil.
Qed.

Lemma filter_nil_iff {A : Type} (f : A -> bool) (l : list A) :
  filter f l = [] <-> forall x, In x l -> f x = false.
Proof.
  induction l as [|x l IH]; cbn; [tauto|].
  destruct (f x) eqn:E; split.
  - discriminate.
  - intros H. rewrite (H x) in E by (left; reflexivity). discriminate.
  - intros H y [<-|Hy]; [exact E|now apply IH].
  - intros H. apply IH. intros y Hy. apply H. now right.
Qed.

(** X11: the ranking is empty (the case the application reports as "no
    eligible cards") exactly when every input card fails a filter or the
    salary test. *)
Theorem ranking_empty_iff (cards : list Card.t) (monthly_salary : Z)
    (monthly_spends : dict Z)
    (needs_lounge lifetime_free_only is_first_year : bool) :
  rank_cards cards monthly_salary monthly_spends needs_lounge
    lifetime_free_only is_first_year = Ok []
  <-> forall card,
        In card cards ->
        kept monthly_salary needs_lounge lifetime_free_only card = false.
Proof.
  rewrite rank_cards_eq, <- filter_nil_iff. split.
  - intros H. injection H as H. apply sort_reverse_nil_iff in H.
    now apply map_eq_nil in H.
  - intros ->. reflexivity.
Qed.

(** X12: with no filter set and a salary that meets every card's minimum
    (the application's fallback listing uses 10,000,000), the ranking has
    exactly one entry per input card. *)
Theorem unfiltered_ranking_lists_every_card (cards : list Card.t)
    (monthly_salary : Z) (monthly_spends : dict Z) (is_first_year : bool) :
  Forall (fun card => card.(Card.min_salary_req) <= monthly_salary) cards ->
  exists results ranked,
    Forall2 (valuation_of monthly_salary monthly_spends false is_first_year)
      cards results
    /\ rank_cards cards monthly_salary monthly_spends false false is_first_year
       = Ok ranked
    /\ Permutation results ranked
    /\ List.length ranked = List.length cards.
Proof.
  intros Hall.
  assert (Hf : filter (kept monthly_salary false false) cards = cards).
  { induction Hall as [|c l Hc _ IH]; [reflexivity|].
    cbn [filter]. unfold kept at 1, passes_filters, check_eligibility.
    cbn [andb negb]. apply Z.leb_le in Hc. rewrite Hc, IH. reflexivity. }
  eexists. eexists. rewrite rank_cards_eq, Hf.
  split; [apply Forall2_valuation; reflexivity|]. split; [reflexivity|].
  split; [apply sort_reverse_perm|].
  rewrite <- (Permutation_length (sort_reverse_perm _ _)). apply length_map.
Qed.

Lemma unfiltered_ranking_lists_every_card_witness :
  Forall (fun card => card.(Card.min_salary_req) <= 10000000) get_all_cards
  /\ exists ranked,
       rank_cards get_all_cards 10000000 (five_spends 0 0 0 0 0) false false
         true = Ok ranked
       /\ List.length ranked = 12%nat.
Proof.
  assert (H : Forall (fun card => card.(Card.min_salary_req) <= 10000000)
                get_all_cards).
  { repeat constructor; vm_compute; discriminate. }
  split; [exact H|].
  destruct (unfiltered_ranking_lists_every_card get_all_cards 10000000
              (five_spends 0 0 0 0 0) true H) as (results & ranked & _ & Hr & _ & Hl).
  exists ranked. split; [exact Hr|exact Hl].
Defined.

(** ** Catalog queries and the filters of the ranking *)

Lemma filter_filter_weaker {A : Type} (f g : A -> bool) (l : list A) :
  (forall x, In x l -> g x = true -> f x = true) ->
  filter g (filter f l) = filter g l.
Proof.
  induction l as [|x l IH]; intros H; [reflexivity|]. cbn [filter].
  assert (IH' : filter g (filter f l) = filter g l)
    by (apply IH; intros y Hy; apply H; now right).
  destruct (f x) eqn:Ef; cbn [filter].
  - now rewrite IH'.
  - destruct (g x) eqn:Eg; [|exact IH'].
    rewrite (H x) in Ef by (auto; left; reflexivity). discriminate.
Qed.

(** Leaving out beforehand cards that the loop would skip changes nothing. *)
Lemma rank_cards_prefilter (f : Card.t -> bool) (cards : list Card.t)
    (monthly_salary : Z) (monthly_spends : dict Z)
    (needs_lounge lifetime_free_only is_first_year : bool) :
  (forall card, In card cards ->
     kept monthly_salary needs_lounge lifetime_free_only card = true ->
     f card = true) ->
  rank_cards (filter f cards) monthly_salary monthly_spends needs_lounge
    lifetime_free_only is_first_year
  = rank_cards cards monthly_salary monthly_spends needs_lounge
      lifetime_free_only is_first_year.
Proof.
  intros H. rewrite !rank_cards_eq, filter_filter_weaker by exact H.
  reflexivity.
Qed.

(** X13: ranking the cards [get_eligible_cards] returns for a salary gives
    the ranking of the whole catalog at that salary. *)
Theorem ranking_of_eligible_cards (monthly_salary : Z) (monthly_spends : dict Z)
    (needs_lounge lifetime_free_only is_first_year : bool) :
  rank_cards (get_eligible_cards monthly_salary) monthly_salary monthly_spends
    needs_lounge lifetime_free_only is_first_year
  = rank_cards get_all_cards monthly_salary monthly_spends needs_lounge
      lifetime_free_only is_first_year.
Proof.
  unfold get_eligible_cards, get_all_cards. apply rank_cards_prefilter.
  intros card _. unfold kept, check_eligibility.
  rewrite andb_true_iff. tauto.
Qed.

(** X14: ranking the catalog with the lounge filter set gives the ranking
    of the cards [get_cards_with_lounge_access] returns. *)
Theorem ranking_of_lounge_cards (monthly_salary : Z) (monthly_spends : dict Z)
    (lifetime_free_only is_first_year : bool) :
  rank_cards get_cards_with_lounge_access monthly_salary monthly_spends true
    lifetime_free_only is_first_year
  = rank_cards get_all_cards monthly_salary monthly_spends true
      lifetime_free_only is_first_year.
Proof.
  unfold get_cards_with_lounge_access, get_all_cards.
  apply rank_cards_prefilter. intros card Hin.
  assert (Hv : 0 <= card.(Card.lounge_visits_per_quarter)).
  { revert card Hin. apply Forall_forall.
    repeat constructor; vm_compute; discriminate. }
  unfold kept, passes_filters.
  rewrite !andb_true_iff, !negb_true_iff. cbn [andb].
  rewrite Z.eqb_neq, Z.ltb_lt. lia.
Qed.

(** With no negative fee, the lifetime-free filter amounts to dropping
    beforehand the cards with a fee. *)
Lemma rank_cards_lifetime_free_prefilter (cards : list Card.t)
    (monthly_salary : Z) (monthly_spends : dict Z)
    (needs_lounge is_first_year : bool) :
  Forall (fun card => 0 <= card.(Card.annual_fee)) cards ->
  rank_cards (filter (fun card => card.(Card.annual_fee) =? 0) cards)
    monthly_salary monthly_spends needs_lounge false is_first_year
  = rank_cards cards monthly_salary monthly_spends needs_lounge true
      is_first_year.
Proof.
  intros Hfee. rewrite !rank_cards_eq. do 3 apply f_equal.
  induction Hfee as [|card l Hc _ IH]; [reflexivity|].
  cbn [filter]. rewrite <- IH.
  assert (Hk : kept monthly_salary needs_lounge true card
               = (card.(Card.annual_fee) =? 0)
                 && kept monthly_salary needs_lounge false card).
  { unfold kept, passes_filters. cbn [andb negb].
    destruct (Z.eqb_spec card.(Card.annual_fee) 0);
      destruct (Z.ltb_spec 0 card.(Card.annual_fee)); try lia; reflexivity. }
  rewrite Hk.
  destruct (card.(Card.annual_fee) =? 0); reflexivity.
Qed.

(** X15: ranking the catalog with the lifetime-free filter set gives the
    ranking, without that filter, of the cards [get_lifetime_free_cards]
    returns. *)
Theorem ranking_of_lifetime_free_cards (monthly_salary : Z)
    (monthly_spends : dict Z) (needs_lounge is_first_year : bool) :
  rank_cards get_lifetime_free_cards monthly_salary monthly_spends needs_lounge
    false is_first_year
  = rank_cards get_all_cards monthly_salary monthly_spends needs_lounge true
      is_first_year.
Proof.
  unfold get_lifetime_free_cards, get_all_cards.
  apply rank_cards_lifetime_free_prefilter.
  repeat constructor; vm_compute; discriminate.
Qed.

(** ** The ranking and the salary *)

Lemma kept_results_subseq (cards : list Card.t) (monthly_salary monthly_salary' : Z)
    (monthly_spends : dict Z)
    (needs_lounge lifetime_free_only is_first_year : bool) :
  monthly_salary <= monthly_salary' ->
  subseq
    (map (valuation monthly_salary monthly_spends needs_lounge is_first_year)
       (filter (kept monthly_salary needs_lounge lifetime_free_only) cards))
    (map (valuation monthly_salary' monthly_spends needs_lounge is_first_year)
       (filter (kept monthly_salary' needs_lounge lifetime_free_only) cards)).
Proof.
  intros Hle. induction cards as [|card cards IH]; [apply subseq_nil|].
  cbn [filter].
  change (kept monthly_salary needs_lounge lifetime_free_only card)
    with (passes_filters needs_lounge lifetime_free_only card
          && check_eligibility card monthly_salary).
  change (kept monthly_salary' needs_lounge lifetime_free_only card)
    with (passes_filters needs_lounge lifetime_free_only card
          && check_eligibility card monthly_salary').
  destruct (passes_filters needs_lounge lifetime_free_only card); cbn [andb];
    [|exact IH].
  destruct (check_eligibility card monthly_salary) eqn:E.
  - assert (E' : check_eligibility card monthly_salary' = true).
    { unfold check_eligibility in *. apply Z.leb_le in E. apply Z.leb_le. lia. }
    rewrite E'. cbn [map].
    rewrite (valuation_salary monthly_salary monthly_salary') by assumption.
    apply subseq_take, IH.
  - destruct (check_eligibility card monthly_salary'); [|exact IH].
    cbn [map]. apply subseq_skip, IH.
Qed.

(** X16: a higher salary never removes a card from the ranking nor changes
    the order of those already there: the ranking at the lower salary is
    the ranking at the higher one with some entries left out. *)
Theorem ranking_grows_with_salary (cards : list Card.t)
    (monthly_salary monthly_salary' : Z) (monthly_spends : dict Z)
    (needs_lounge lifetime_free_only is_first_year : bool) :
  monthly_salary <= monthly_salary' ->
  exists ranked ranked',
    rank_cards cards monthly_salary monthly_spends needs_lounge
      lifetime_free_only is_first_year = Ok ranked
    /\ rank_cards cards monthly_salary' monthly_spends needs_lounge
         lifetime_free_only is_first_year = Ok ranked'
    /\ subseq ranked ranked'.
Proof.
  intros Hle. rewrite !rank_cards_eq. eexists. eexists.
  split; [reflexivity|]. split; [reflexivity|].
  apply sort_reverse_subseq. now apply kept_results_subseq.
Qed.

Lemma ranking_grows_with_salary_witness :
  30000 <= 75000
  /\ exists ranked ranked',
       rank_cards CREDIT_CARDS 30000 (five_spends 15000 5000 5000 10000 5000)
         false false true = Ok ranked
       /\ rank_cards CREDIT_CARDS 75000 (five_spends 15000 5000 5000 10000 5000)
            false false true = Ok ranked'
       /\ subseq ranked ranked'
       /\ List.length ranked = 7%nat /\ List.length ranked' = 9%nat.
Proof.
  assert (H : 30000 <= 75000) by lia.
  split; [exact H|].
  destruct (ranking_grows_with_salary CREDIT_CARDS 30000 75000
              (five_spends 15000 5000 5000 10000 5000) false false true H)
    as (ranked & ranked' & Hr & Hr' & Hs).
  exists ranked, ranked'. split; [exact Hr|]. split; [exact Hr'|].
  split; [exact Hs|].
  vm_compute in Hr, Hr'. injection Hr as <-. injection Hr' as <-.
  split; reflexivity.
Defined.

(** ** The ranking and the lounge *)

(** X17: when lounge access is wanted (and no visit count is negative),
    every entry of the ranking has a positive lounge value. *)
Theorem ranked_lounge_value_positive (cards : list Card.t) (monthly_salary : Z)
    (monthly_spends : dict Z) (lifetime_free_only is_first_year : bool) :
  Forall (fun card => 0 <= card.(Card.lounge_visits_per_quarter)) cards ->
  exists ranked,
    rank_cards cards monthly_salary monthly_spends true lifetime_free_only
      is_first_year = Ok ranked
    /\ Forall
         (fun r =>
            exists b,
              r.(Analysis.breakdown) = Some b
              /\ (0 < b.(Breakdown.lounge_value))%Q)
         ranked.
Proof.
  intros Hv. rewrite rank_cards_eq. eexists. split; [reflexivity|].
  apply (Permutation_Forall (sort_reverse_perm Analysis.net_value _)).
  rewrite Forall_map, Forall_forall. intros card Hin.
  apply filter_In in Hin. destruct Hin as [Hin Hk].
  rewrite Forall_forall in Hv. specialize (Hv card Hin).
  unfold kept, passes_filters in Hk.
  rewrite !andb_true_iff, !negb_true_iff in Hk. cbn [andb] in Hk.
  destruct Hk as [[_ Hvis] He]. apply Z.eqb_neq in Hvis.
  destruct (calculate_net_value_eligible card monthly_salary monthly_spends
              true is_first_year He) as (r & b & Hr & Hb).
  pose proof (calculate_net_value_valuation card monthly_salary monthly_spends
                true is_first_year) as Hval.
  rewrite Hr in Hval. injection Hval as <-.
  destruct Hb as (_ & Hbd & _ & _ & _ & _ & _ & _ & _ & Hl & _).
  exists b. split; [exact Hbd|]. rewrite Hl.
  unfold calculate_lounge_value, LOUNGE_VALUE_PER_VISIT. cbn [negb].
  destruct (999 <=? card.(Card.lounge_visits_per_quarter)); [reflexivity|].
  rewrite <- (Zlt_Qlt 0). lia.
Qed.

Lemma ranked_lounge_value_positive_witness :
  Forall (fun card => 0 <= card.(Card.lounge_visits_per_quarter)) CREDIT_CARDS
  /\ exists ranked,
       rank_cards CREDIT_CARDS 30000 (five_spends 15000 5000 5000 10000 5000)
         true false false = Ok ranked
       /\ Forall
            (fun r =>
               exists b,
                 r.(Analysis.breakdown) = Some b
                 /\ (0 < b.(Breakdown.lounge_value))%Q)
            ranked.
Proof.
  assert (H : Forall (fun card => 0 <= card.(Card.lounge_visits_per_quarter))
                CREDIT_CARDS).
  { repeat constructor; vm_compute; discriminate. }
  split; [exact H|].
  apply (ranked_lounge_value_positive CREDIT_CARDS 30000
           (five_spends 15000 5000 5000 10000 5000) false false H).
Defined.

(** ** The ranking and the order of the input *)

Lemma filter_perm {A : Type} (f : A -> bool) (l l' : list A) :
  Permutation l l' -> Permutation (filter f l) (filter f l').
Proof.
  induction 1 as [|x l l' _ IH|x y l|l l' l'' _ IH1 _ IH2]; cbn [filter].
  - apply perm_nil.
  - destruct (f x); [now apply perm_skip|exact IH].
  - destruct (f x), (f y); try reflexivity. apply perm_swap.
  - now transitivity (filter f l').
Qed.

(** X18: the cards that are ranked do not depend on the order of the
    input: a reordered input gives the same entries, possibly reordered. *)
Theorem ranking_of_permuted_input (cards cards' : list Card.t)
    (monthly_salary : Z) (monthly_spends : dict Z)
    (needs_lounge lifetime_free_only is_first_year : bool) :
  Permutation cards cards' ->
  exists ranked ranked',
    rank_cards cards monthly_salary monthly_spends needs_lounge
      lifetime_free_only is_first_year = Ok ranked
    /\ rank_cards cards' monthly_salary monthly_spends needs_lounge
         lifetime_free_only is_first_year = Ok ranked'
    /\ Permutation ranked ranked'.
Proof.
  intros Hp. rewrite !rank_cards_eq. eexists. eexists.
  split; [reflexivity|]. split; [reflexivity|].
  rewrite <- !sort_reverse_perm.
  apply Permutation_map, filter_perm, Hp.
Qed.

Lemma ranking_of_permuted_input_witness :
  Permutation [Axis_Flipkart; RBL_Shoprite] [RBL_Shoprite; Axis_Flipkart]
  /\ exists ranked ranked',
       rank_cards [Axis_Flipkart; RBL_Shoprite] 30000
         (five_spends 15000 5000 5000 10000 5000) false false false = Ok ranked
       /\ rank_cards [RBL_Shoprite; Axis_Flipkart] 30000
            (five_spends 15000 5000 5000 10000 5000) false false false
          = Ok ranked'
       /\ Permutation ranked ranked'.
Proof.
  assert (H : Permutation [Axis_Flipkart; RBL_Shoprite]
                [RBL_Shoprite; Axis_Flipkart]) by apply perm_swap.
  split; [exact H|].
  apply (ranking_of_permuted_input _ _ 30000
           (five_spends 15000 5000 5000 10000 5000) false false false H).
Defined.

(** ** The waiver flag and the explanation *)

(** X19: in an eligible valuation the waiver flag is set exactly when the
    stated fee is positive and either the threshold is 0 or the annual
    spend reaches it; when it is set the effective fee is 0. *)
Theorem fee_waived_flag_meaning (card : Card.t) (monthly_salary : Z)
    (monthly_spends : dict Z) (needs_lounge is_first_year : bool) :
  card.(Card.min_salary_req) <= monthly_salary ->
  exists r b,
    calculate_net_value card monthly_salary monthly_spends needs_lounge
      is_first_year = Ok r
    /\ r.(Analysis.breakdown) = Some b
    /\ (b.(Breakdown.fee_waived) = true
        <-> 0 < card.(Card.annual_fee)
            /\ (card.(Card.fee_waiver_threshold) = 0
                \/ card.(Card.fee_waiver_threshold)
                   <= b.(Breakdown.total_annual_spend)))
    /\ (b.(Breakdown.fee_waived) = true -> b.(Breakdown.effective_fee) = 0).
Proof.
  intros Hs. apply Z.leb_le in Hs.
  destruct (calculate_net_value_eligible card monthly_salary monthly_spends
              needs_lounge is_first_year Hs) as (r & b & Hr & Hb).
  exists r, b. split; [exact Hr|]. split; [apply Hb|].
  split; [exact (fee_waived_iff _ _ _ _ _ _ Hb)|].
  destruct Hb as (_ & _ & _ & _ & _ & Hfee & Hw & _).
  rewrite Hw, Hfee, andb_true_iff, Z.eqb_eq. tauto.
Qed.

Lemma fee_waived_flag_meaning_witness :
  HDFC_Regalia_Gold.(Card.min_salary_req) <= 75000
  /\ exists r b,
       calculate_net_value HDFC_Regalia_Gold 75000
         (five_spends 15000 5000 5000 10000 5000) false true = Ok r
       /\ r.(Analysis.breakdown) = Some b
       /\ b.(Breakdown.fee_waived) = true
       /\ b.(Breakdown.effective_fee) = 0.
Proof.
  assert (H : HDFC_Regalia_Gold.(Card.min_salary_req) <= 75000)
    by (vm_compute; discriminate).
  split; [exact H|].
  destruct (fee_waived_flag_meaning HDFC_Regalia_Gold 75000
              (five_spends 15000 5000 5000 10000 5000) false true H)
    as (r & b & Hr & Hb & Hiff & Hfee).
  assert (Hw : b.(Breakdown.fee_waived) = true).
  { vm_compute in Hr. injection Hr as <-. cbn in Hb. injection Hb as <-.
    reflexivity. }
  exists r, b. split; [exact Hr|]. split; [exact Hb|].
  split; [exact Hw|exact (Hfee Hw)].
Defined.

Lemma max_key_fold (d : dict Q) :
  forall bk bv,
  let best :=
    fold_left
      (fun '(bk, bv) '(k, v) => if Qlt_le_dec bv v then (k, v) else (bk, bv))
      d (bk, bv) in
  (best = (bk, bv) \/ In best d)
  /\ (bv <= snd best)%Q
  /\ forall k v, In (k, v) d -> (v <= snd best)%Q.
Proof.
  induction d as [|[k v] d IH]; intros bk bv; cbn [fold_left].
  - cbn. split; [left; reflexivity|]. split; [apply Qle_refl|tauto].
  - destruct (Qlt_le_dec bv v) as [Hlt|Hle].
    + destruct (IH k v) as (Hin & Hb & Hall). cbv zeta in *.
      split; [right; destruct Hin as [->|Hin]; [left; reflexivity|right; exact Hin]|].
      split; [apply Qle_trans with v; [apply Qlt_le_weak, Hlt|exact Hb]|].
      intros k' v' [E|Hin']; [injection E as <- <-; exact Hb|].
      exact (Hall k' v' Hin').
    + destruct (IH bk bv) as (Hin & Hb & Hall). cbv zeta in *.
      split; [destruct Hin as [->|Hin]; [left; reflexivity|right; right; exact Hin]|].
      split; [exact Hb|].
      intros k' v' [E|Hin']; [injection E as <- <-|].
      * apply Qle_trans with bv; assumption.
      * exact (Hall k' v' Hin').
Qed.

Lemma max_key_is_maximal (d : dict Q) (best : string) :
  max_key d = Some best ->
  exists value,
    In (best, value) d /\ forall k v, In (k, v) d -> (v <= value)%Q.
Proof.
  destruct d as [|[k0 v0] d]; [discriminate|]. cbn [max_key].
  intros H. injection H as H.
  destruct (max_key_fold d k0 v0) as (Hin & Hb & Hall). cbv zeta in *.
  destruct (fold_left _ d (k0, v0)) as [k v] eqn:E. cbn [fst snd] in *. subst k.
  exists v. split.
  - destruct Hin as [Hin|Hin]; [left; now symmetry|right; exact Hin].
  - intros k' v' [E'|Hin']; [injection E' as <- <-; exact Hb|].
    exact (Hall k' v' Hin').
Qed.

(** The explanation of an eligible valuation, from its breakdown. *)
Lemma calculate_net_value_why (card : Card.t) (monthly_salary : Z)
    (monthly_spends : dict Z) (needs_lounge is_first_year : bool) :
  check_eligibility card monthly_salary = true ->
  exists r b,
    calculate_net_value card monthly_salary monthly_spends needs_lounge
      is_first_year = Ok r
    /\ r.(Analysis.breakdown) = Some b
    /\ r.(Analysis.why_recommended)
       = Some (match
                 recommendation_reasons card b.(Breakdown.category_rewards)
                   b.(Breakdown.fee_waived) b.(Breakdown.achieved_milestones)
                   b.(Breakdown.lounge_value)
               with
               | [] => "Basic rewards on all spends"
               | reasons => String.concat " | " reasons
               end).
Proof.
  intros He. unfold calculate_net_value. rewrite He. cbn [negb].
  destruct (calculate_base_rewards card (calculate_annual_spend monthly_spends))
    as [total_rewards category_rewards].
  destruct (calculate_milestone_benefits card
              (calculate_total_spend (calculate_annual_spend monthly_spends)))
    as [milestone_value achieved_milestones].
  rewrite guarded_rate_ok. cbn [bind].
  eexists. eexists. split; [reflexivity|]. split; [reflexivity|].
  cbn. destruct (recommendation_reasons _ _ _ _ _); reflexivity.
Qed.

(** X20: when some category earns a positive reward, the explanation of an
    eligible valuation starts with a category whose reward is the highest,
    with the rate the card's multipliers give for it (the base rate when
    they give none). *)
Theorem explanation_leads_with_best_category (card : Card.t)
    (monthly_salary : Z) (monthly_spends : dict Z)
    (needs_lounge is_first_year : bool) :
  card.(Card.min_salary_req) <= monthly_salary ->
  exists r b,
    calculate_net_value card monthly_salary monthly_spends needs_lounge
      is_first_year = Ok r
    /\ r.(Analysis.breakdown) = Some b
    /\ forall best,
         max_key b.(Breakdown.category_rewards) = Some best ->
         (0 < dict_get b.(Breakdown.category_rewards) best 0)%Q ->
         (exists value,
            In (best, value) b.(Breakdown.category_rewards)
            /\ forall k v,
                 In (k, v) b.(Breakdown.category_rewards) -> (v <= value)%Q)
         /\ exists others,
              r.(Analysis.why_recommended)
              = Some (String.concat " | "
                        (fstring
                           [format_fixed false 1
                              (dict_get card.(Card.category_multipliers) best
                                 card.(Card.base_reward_rate) * 100)%Q;
                            "% rewards on "; best; " spend"]
                         :: others)).
Proof.
  intros Hs. apply Z.leb_le in Hs.
  destruct (calculate_net_value_why card monthly_salary monthly_spends
              needs_lounge is_first_year Hs) as (r & b & Hr & Hb & Hwhy).
  exists r, b. split; [exact Hr|]. split; [exact Hb|].
  intros best Hmax Hpos. split; [now apply max_key_is_maximal|].
  rewrite Hwhy. unfold recommendation_reasons. rewrite Hmax.
  destruct (Qlt_le_dec 0 (dict_get (Breakdown.category_rewards b) best 0%Q))
    as [_|Hle]; [|exfalso; apply (Qlt_irrefl 0%Q);
                   exact (Qlt_le_trans _ _ _ Hpos Hle)].
  cbn [app].
  destruct (Breakdown.fee_waived b), (Card.annual_fee card =? 0),
    (Breakdown.achieved_milestones b),
    (Qlt_le_dec 0 (Breakdown.lounge_value b)),
    (999 <=? Card.lounge_visits_per_quarter card);
    cbn [app]; eexists; reflexivity.
Qed.

Lemma explanation_leads_with_best_category_witness :
  exists r,
    calculate_net_value SBI_Cashback_Card 75000
      (five_spends 15000 5000 5000 10000 5000) false true = Ok r
    /\ exists others,
         r.(Analysis.why_recommended)
         = Some (String.concat " | " ("5.0% rewards on online spend" :: others)).
Proof.
  assert (H : SBI_Cashback_Card.(Card.min_salary_req) <= 75000)
    by (vm_compute; discriminate).
  destruct (explanation_leads_with_best_category SBI_Cashback_Card 75000
              (five_spends 15000 5000 5000 10000 5000) false true H)
    as (r & b & Hr & Hb & Hbest).
  exists r. split; [exact Hr|].
  assert (Eb : b.(Breakdown.category_rewards)
               = snd (calculate_base_rewards SBI_Cashback_Card
                        (calculate_annual_spend
                           (five_spends 15000 5000 5000 10000 5000)))).
  { vm_compute in Hr. injection Hr as <-. cbn in Hb. injection Hb as <-.
    reflexivity. }
  destruct (Hbest "online") as (_ & others & Hwhy).
  - rewrite Eb. reflexivity.
  - rewrite Eb. reflexivity.
  - exists others. exact Hwhy.
Defined.

(** ** The flags and the net value *)

(** X21: the two flags touch only the lounge and welcome terms: against
    the valuation with both flags off, an eligible valuation has the same
    rewards, milestones, fee, waiver flag and reward rate, its net value
    is the same left-to-right sum with the lounge value and the welcome
    benefit where the other has 0, and (visit count and welcome benefit
    not negative) it is never lower. *)
Theorem flags_change_lounge_and_welcome_only (card : Card.t)
    (monthly_salary : Z) (monthly_spends : dict Z)
    (needs_lounge is_first_year : bool) :
  card.(Card.min_salary_req) <= monthly_salary ->
  exists r b plain b0,
    calculate_net_value card monthly_salary monthly_spends needs_lounge
      is_first_year = Ok r
    /\ calculate_net_value card monthly_salary monthly_spends false false
       = Ok plain
    /\ r.(Analysis.breakdown) = Some b
    /\ plain.(Analysis.breakdown) = Some b0
    /\ b.(Breakdown.total_rewards) = b0.(Breakdown.total_rewards)
    /\ b.(Breakdown.category_rewards) = b0.(Breakdown.category_rewards)
    /\ b.(Breakdown.milestone_value) = b0.(Breakdown.milestone_value)
    /\ b.(Breakdown.achieved_milestones) = b0.(Breakdown.achieved_milestones)
    /\ b.(Breakdown.effective_fee) = b0.(Breakdown.effective_fee)
    /\ b.(Breakdown.fee_waived) = b0.(Breakdown.fee_waived)
    /\ r.(Analysis.effective_reward_rate) = plain.(Analysis.effective_reward_rate)
    /\ b0.(Breakdown.lounge_value) = 0%Q
    /\ b0.(Breakdown.welcome_value) = 0
    /\ b.(Breakdown.lounge_value) = calculate_lounge_value card needs_lounge
    /\ b.(Breakdown.welcome_value)
       = (if is_first_year then card.(Card.welcome_benefit) else 0)
    /\ plain.(Analysis.net_value)
       = (b0.(Breakdown.total_rewards) + b0.(Breakdown.milestone_value)
          + 0 + inject_Z 0 - inject_Z b0.(Breakdown.effective_fee))%Q
    /\ r.(Analysis.net_value)
       = (b0.(Breakdown.total_rewards) + b0.(Breakdown.milestone_value)
          + calculate_lounge_value card needs_lounge
          + inject_Z (if is_first_year then card.(Card.welcome_benefit) else 0)
          - inject_Z b0.(Breakdown.effective_fee))%Q
    /\ (0 <= card.(Card.lounge_visits_per_quarter) ->
        0 <= card.(Card.welcome_benefit) ->
        (plain.(Analysis.net_value) <= r.(Analysis.net_value))%Q).
Proof.
  intros Hs. apply Z.leb_le in Hs.
  destruct (calculate_net_value_eligible card monthly_salary monthly_spends
              needs_lounge is_first_year Hs) as (r & b & Hr & Hb).
  destruct (calculate_net_value_eligible card monthly_salary monthly_spends
              false false Hs) as (r0 & b0 & Hr0 & Hb0).
  exists r, b, r0, b0. split; [exact Hr|]. split; [exact Hr0|].
  destruct Hb as (_ & Hbd & _ & _ & Ht & Hfee & Hfw & Hrew & Hmil & Hl & Hw & Hg & Hn & Hrate).
  destruct Hb0 as (_ & Hbd0 & _ & _ & Ht0 & Hfee0 & Hfw0 & Hrew0 & Hmil0 & Hl0 & Hw0 & Hg0 & Hn0 & Hrate0).
  rewrite <- Hrew in Hrew0. rewrite <- Hmil in Hmil0.
  injection Hrew0 as Etr Ecr. injection Hmil0 as Emv Eam.
  assert (Ef : b.(Breakdown.effective_fee) = b0.(Breakdown.effective_fee))
    by (rewrite Hfee, Hfee0; reflexivity).
  assert (En : r.(Analysis.net_value)
               = (b0.(Breakdown.total_rewards) + b0.(Breakdown.milestone_value)
                  + calculate_lounge_value card needs_lounge
                  + inject_Z (if is_first_year
                              then card.(Card.welcome_benefit) else 0)
                  - inject_Z b0.(Breakdown.effective_fee))%Q)
    by (rewrite Hn, Hg, Hl, Hw, Ef, Etr, Emv; reflexivity).
  repeat match goal with |- _ /\ _ => split end;
    try assumption; try (symmetry; assumption).
  - rewrite Hfw, Hfw0. reflexivity.
  - rewrite Hrate, Hrate0, Etr. reflexivity.
  - rewrite Hn0, Hg0, Hl0, Hw0. reflexivity.
  - intros Hv Hwb. rewrite En, Hn0, Hg0, Hl0, Hw0. unfold Qminus.
    cbn [calculate_lounge_value negb].
    repeat apply Qplus_le_compat; try apply Qle_refl.
    + now apply calculate_lounge_value_nonneg.
    + rewrite <- Zle_Qle. destruct is_first_year; [exact Hwb|lia].
Qed.

Lemma flags_change_lounge_and_welcome_only_witness :
  HDFC_Infinia.(Card.min_salary_req) <= 500000
  /\ exists r plain,
       calculate_net_value HDFC_Infinia 500000 (five_spends 15000 0 0 0 0)
         true true = Ok r
       /\ calculate_net_value HDFC_Infinia 500000 (five_spends 15000 0 0 0 0)
            false false = Ok plain
       /\ (plain.(Analysis.net_value) <= r.(Analysis.net_value))%Q
       /\ (r.(Analysis.net_value) == 23940 # 1)%Q
       /\ (plain.(Analysis.net_value) == - (6560 # 1))%Q.
Proof.
  assert (H : HDFC_Infinia.(Card.min_salary_req) <= 500000)
    by (vm_compute; discriminate).
  split; [exact H|].
  destruct (flags_change_lounge_and_welcome_only HDFC_Infinia 500000
              (five_spends 15000 0 0 0 0) true true H)
    as (r & b & plain & b0 & Hr & Hp & _ & _ & _ & _ & _ & _ & _ & _ & _ & _
        & _ & _ & _ & _ & _ & Hle).
  exists r, plain. split; [exact Hr|]. split; [exact Hp|].
  split; [apply Hle; vm_compute; discriminate|].
  vm_compute in Hr, Hp. injection Hr as <-. injection Hp as <-.
  split; reflexivity.
Defined.

(** ** The net value and the spend *)

Lemma total_spend_le (monthly_spends monthly_spends' : dict Z) :
  spends_le monthly_spends monthly_spends' ->
  forall a a', a <= a' ->
  fold_left Z.add (values (calculate_annual_spend monthly_spends)) a
  <= fold_left Z.add (values (calculate_annual_spend monthly_spends')) a'.
Proof.
  unfold values, calculate_annual_spend.
  induction 1 as [|[k x] [k' x'] l l' [_ Hx] _ IH]; intros a a' Ha;
    [exact Ha|].
  cbn [map snd fold_left] in *. apply IH. lia.
Qed.

Lemma rewards_le (card : Card.t) (monthly_spends monthly_spends' : dict Z) :
  rates_nonneg card ->
  spends_le monthly_spends monthly_spends' ->
  forall t t' : Q, (t <= t')%Q ->
  (fold_left Qplus
     (map (fun it => reward_of card (fst it) (snd it))
        (calculate_annual_spend monthly_spends)) t
   <= fold_left Qplus
        (map (fun it => reward_of card (fst it) (snd it))
           (calculate_annual_spend monthly_spends')) t')%Q.
Proof.
  intros Hr. unfold calculate_annual_spend.
  induction 1 as [|[k x] [k' x'] l l' [Hk Hx] _ IH]; intros t t' Ht;
    [exact Ht|].
  cbn [map fst snd fold_left] in *. subst k'. apply IH.
  apply Qplus_le_compat; [exact Ht|]. unfold reward_of.
  apply Qmult_le_compat_r; [|now apply reward_rate_nonneg].
  rewrite <- Zle_Qle. lia.
Qed.

Lemma milestone_value_monotone (card : Card.t) (spend spend' : Z) :
  points_nonneg card ->
  spend <= spend' ->
  (fst (calculate_milestone_benefits card spend)
   <= fst (calculate_milestone_benefits card spend'))%Q.
Proof.
  intros Hp Hle. unfold calculate_milestone_benefits.
  rewrite !milestone_fold. cbn [fst].
  rewrite !fold_left_Qplus, !Qplus_0_l.
  apply (reached_monotone card spend spend' _ Hle Hp).
Qed.

Lemma calculate_effective_fee_antitone (card : Card.t) (spend spend' : Z) :
  0 <= card.(Card.annual_fee) ->
  spend <= spend' ->
  calculate_effective_fee card spend' <= calculate_effective_fee card spend.
Proof.
  intros Hfee Hle. unfold calculate_effective_fee.
  destruct (card.(Card.fee_waiver_threshold) =? 0); [lia|].
  destruct (Z.leb_spec card.(Card.fee_waiver_threshold) spend);
    destruct (Z.leb_spec card.(Card.fee_waiver_threshold) spend'); lia.
Qed.

(** X22: for an eligible profile and a card with no negative rate, points
    or stated fee, raising the spend of any categories never lowers the
    card's net value. *)
Theorem net_value_monotone_in_spend (card : Card.t) (monthly_salary : Z)
    (monthly_spends monthly_spends' : dict Z)
    (needs_lounge is_first_year : bool) :
  card.(Card.min_salary_req) <= monthly_salary ->
  rates_nonneg card ->
  points_nonneg card ->
  0 <= card.(Card.annual_fee) ->
  spends_le monthly_spends monthly_spends' ->
  exists r r',
    calculate_net_value card monthly_salary monthly_spends needs_lounge
      is_first_year = Ok r
    /\ calculate_net_value card monthly_salary monthly_spends' needs_lounge
         is_first_year = Ok r'
    /\ (r.(Analysis.net_value) <= r'.(Analysis.net_value))%Q.
Proof.
  intros Hs Hr Hp Hf Hle. apply Z.leb_le in Hs.
  destruct (calculate_net_value_eligible card monthly_salary monthly_spends
              needs_lounge is_first_year Hs) as (r & b & Hres & Hb).
  destruct (calculate_net_value_eligible card monthly_salary monthly_spends'
              needs_lounge is_first_year Hs) as (r' & b' & Hres' & Hb').
  exists r, r'. split; [exact Hres|]. split; [exact Hres'|].
  destruct Hb as (_ & _ & _ & _ & _ & Hfee & _ & Hrew & Hmil & Hl & Hw & Hg & Hn & _).
  destruct Hb' as (_ & _ & _ & _ & _ & Hfee' & _ & Hrew' & Hmil' & Hl' & Hw' & Hg' & Hn' & _).
  assert (Htot : calculate_total_spend (calculate_annual_spend monthly_spends)
                 <= calculate_total_spend (calculate_annual_spend monthly_spends')).
  { unfold calculate_total_spend. apply total_spend_le; [exact Hle|lia]. }
  assert (H1 : (b.(Breakdown.total_rewards) <= b'.(Breakdown.total_rewards))%Q).
  { replace b.(Breakdown.total_rewards)
      with (fst (calculate_base_rewards card
                   (calculate_annual_spend monthly_spends)))
      by (rewrite <- Hrew; reflexivity).
    replace b'.(Breakdown.total_rewards)
      with (fst (calculate_base_rewards card
                   (calculate_annual_spend monthly_spends')))
      by (rewrite <- Hrew'; reflexivity).
    unfold calculate_base_rewards. rewrite !base_rewards_total.
    apply rewards_le; [exact Hr|exact Hle|apply Qle_refl]. }
  assert (H2 : (b.(Breakdown.milestone_value) <= b'.(Breakdown.milestone_value))%Q).
  { replace b.(Breakdown.milestone_value)
      with (fst (calculate_milestone_benefits card
                   (calculate_total_spend
                      (calculate_annual_spend monthly_spends))))
      by (rewrite <- Hmil; reflexivity).
    replace b'.(Breakdown.milestone_value)
      with (fst (calculate_milestone_benefits card
                   (calculate_total_spend
                      (calculate_annual_spend monthly_spends'))))
      by (rewrite <- Hmil'; reflexivity).
    now apply milestone_value_monotone. }
  assert (H3 : (- inject_Z b.(Breakdown.effective_fee)
                <= - inject_Z b'.(Breakdown.effective_fee))%Q).
  { apply Qopp_le_compat. rewrite <- Zle_Qle, Hfee, Hfee'.
    now apply calculate_effective_fee_antitone. }
  rewrite Hn, Hg, Hn', Hg', Hl, Hl', Hw, Hw'. unfold Qminus.
  repeat apply Qplus_le_compat; try assumption; apply Qle_refl.
Qed.

Lemma net_value_monotone_in_spend_witness :
  spends_le (five_spends 15000 0 0 0 0) (five_spends 15000 5000 5000 10000 5000)
  /\ exists r r',
       calculate_net_value HDFC_Regalia_Gold 75000 (five_spends 15000 0 0 0 0)
         false false = Ok r
       /\ calculate_net_value HDFC_Regalia_Gold 75000
            (five_spends 15000 5000 5000 10000 5000) false false = Ok r'
       /\ (r.(Analysis.net_value) <= r'.(Analysis.net_value))%Q.
Proof.
  assert (H : spends_le (five_spends 15000 0 0 0 0)
                (five_spends 15000 5000 5000 10000 5000)).
  { repeat constructor; cbn; discriminate. }
  split; [exact H|].
  apply (net_value_monotone_in_spend HDFC_Regalia_Gold 75000
           (five_spends 15000 0 0 0 0) (five_spends 15000 5000 5000 10000 5000)
           false false).
  - vm_compute; discriminate.
  - repeat constructor; discriminate.
  - repeat constructor; discriminate.
  - vm_compute; discriminate.
  - exact H.
Defined.
